(** * The DSA automation gateway (dsa-backend/server.js)

    A shallow embedding of the Node.js gateway: the folder listing with its
    cache and its static fallback, the two-phase fetch of the folder tree from
    the listing service, the validation and forwarding of a file-creation
    request, and the health endpoint.

    Values that come out of [JSON.parse] are modelled by [Js.json]; the two
    upstream services are oracles over an abstract world [W], and every HTTP
    request the gateway sends is recorded in a trace. The clock is an input:
    a handler is given the readings [Date.now()] returns to it, in
    milliseconds. A handler runs to its answer before the next request is
    served. *)

From Stdlib Require Import ZArith SpecFloat.
From stdpp Require Import gmap strings list fin_maps.

Local Open Scope Z_scope.
Set Warnings "-register-all".

(** ** JavaScript values as the handlers see them *)

Module Js.

(** A value produced by [JSON.parse]. Numbers are IEEE doubles. *)
Inductive json : Type :=
| JNull
| JBool (b : bool)
| JNum (x : spec_float)
| JStr (s : string)
| JArr (items : list json)
| JObj (props : list (string * json)).

(** The value of a destructured property: [None] is [undefined]. *)
Definition value : Type := option json.

(** ToBoolean. [!v] is [negb (truthy v)]. *)
Definition truthy (v : value) : bool :=
  match v with
  | None => false
  | Some JNull => false
  | Some (JBool b) => b
  | Some (JNum (S754_zero _)) => false
  | Some (JNum S754_nan) => false
  | Some (JNum _) => true
  | Some (JStr EmptyString) => false
  | Some (JStr (String _ _)) => true
  | Some (JArr _) => true
  | Some (JObj _) => true
  end.

(** [strings.includes(v)] on an array of string literals: SameValueZero
    only relates a string to an equal string. *)
Definition includes (strings : list string) (v : value) : bool :=
  match v with
  | Some (JStr s) => bool_decide (s ∈ strings)
  | _ => false
  end.

(** Whether ToString, as performed by a template literal, throws a
    TypeError. A parsed object with an own property [toString] shadows
    [Object.prototype.toString] with a value that is not callable, and
    [Object.prototype.valueOf] returns the object itself, so no primitive is
    found. An array joins the strings of its elements. *)
Fixpoint to_string_throws (j : json) : bool :=
  match j with
  | JArr items => existsb to_string_throws items
  | JObj props => existsb (fun p => String.eqb (fst p) "toString") props
  | _ => false
  end.

Definition template_throws (v : value) : bool :=
  match v with
  | Some j => to_string_throws j
  | None => false
  end.

End Js.

(** ** The HTTP client

    What [await axios.get(...)] and [await axios.post(...)] produce for a
    given behaviour of the network. *)

Module Axios.

(** What the network did with one request: a server answered with a status
    and a body, or no answer came and the client library reports the code of
    the failure ([ECONNREFUSED], [ENOTFOUND], [ECONNRESET], ..., and
    [ECONNABORTED] when the configured timeout ran out). *)
Inductive net_outcome (D : Type) : Type :=
| Responded (status : Z) (data : D)
| NoResponse (code : string).
Arguments Responded {D} status data.
Arguments NoResponse {D} code.

(** The error object a handler catches. A TypeError raised by the handler's
    own code has neither a [code] nor a [response]. *)
Record error (D : Type) : Type := {
  code : option string;
  response : option (Z * D)
}.
Arguments code {D} e.
Arguments response {D} e.

Definition TypeError {D : Type} : error D :=
  {| code := None; response := None |}.

(** The completion of an awaited call: a value, or a thrown error. *)
Inductive completion (D A : Type) : Type :=
| Normal (a : A)
| Throw (e : error D).
Arguments Normal {D A} a.
Arguments Throw {D A} e.

(** The code the library gives the error of a rejected status: indexed by
    the hundreds of the status in [ERR_BAD_REQUEST; ERR_BAD_RESPONSE]. *)
Definition status_code (status : Z) : option string :=
  if (400 <=? status) && (status <? 500) then Some "ERR_BAD_REQUEST"
  else if (500 <=? status) && (status <? 600) then Some "ERR_BAD_RESPONSE"
  else None.

(** The default [validateStatus]. *)
Definition validateStatus (status : Z) : bool :=
  (200 <=? status) && (status <? 300).

(** The promise settles with the response data on a 2xx status and rejects
    otherwise. *)
Definition settle {D : Type} (o : net_outcome D) : completion D D :=
  match o with
  | Responded status data =>
      if validateStatus status then Normal data
      else Throw {| code := status_code status; response := Some (status, data) |}
  | NoResponse c => Throw {| code := Some c; response := None |}
  end.

End Axios.

(** ** The listing service *)

Module GitHub.

(** An entry of a directory listing. *)
Record item : Type := { name : string; type : string }.

(** The body of a listing response. [Listing] is an array of entries, each
    with at least a [name] and a [type] string; [Malformed] is any body on
    which [data.filter(item => item.type === 'dir')] throws a TypeError (not
    an array, or an array with a [null] element). *)
Inductive payload : Type :=
| Listing (items : list item)
| Malformed.

Definition is_dir (i : item) : bool := String.eqb (type i) "dir".

End GitHub.

(** ** Sample upstream behaviours

    Concrete services and request bodies on which the statements below are
    exercised. The world is the number of requests the services have seen. *)

Module Scenario.

Import Js Axios.

Definition API : string := "https://api.github.com/repos/sc-systems/dsa-journey".

Definition PYTHON : string := "http://localhost:5000".

Definition dir (n : string) : GitHub.item := {| GitHub.name := n; GitHub.type := "dir" |}.

Definition file (n : string) : GitHub.item := {| GitHub.name := n; GitHub.type := "file" |}.

(** The root holds two directories and a file; DS lists two directories and
    a file; every other listing, that of Patterns among them, is refused. *)
Definition listing (url : string) (w : nat) : net_outcome GitHub.payload * nat :=
  if String.eqb url (API +:+ "/contents") then
    (Responded 200 (GitHub.Listing [dir "DS"; file "README.md"; dir "Patterns"]), S w)
  else if String.eqb url (API +:+ "/contents/DS") then
    (Responded 200 (GitHub.Listing [dir "Arrays"; file "notes.md"; dir "Stack"]), S w)
  else
    (Responded 403 GitHub.Malformed, S w).

(** The listing service cannot be resolved. *)
Definition listing_down (url : string) (w : nat) : net_outcome GitHub.payload * nat :=
  (NoResponse "ENOTFOUND", S w).

(** The persistence service does not answer within the timeout. *)
Definition persistence_timeout (url : string) (data : gmap string json) (w : nat)
  : net_outcome json * nat :=
  (NoResponse "ECONNABORTED", S w).

(** Nothing listens on the port of the persistence service. *)
Definition persistence_refused (url : string) (data : gmap string json) (w : nat)
  : net_outcome json * nat :=
  (NoResponse "ECONNREFUSED", S w).

Definition rejection : json :=
  JObj [("success", JBool false); ("error", JStr "Invalid path")].

(** The persistence service rejects the request. *)
Definition persistence_rejects (url : string) (data : gmap string json) (w : nat)
  : net_outcome json * nat :=
  (Responded 422 rejection, S w).

Definition created : json :=
  JObj [("success", JBool true); ("path", JStr "DS/Arrays/a.cpp")].

(** The persistence service creates the file. *)
Definition persistence_creates (url : string) (data : gmap string json) (w : nat)
  : net_outcome json * nat :=
  (Responded 201 created, S w).

Definition body : gmap string json :=
  {[ "topFolder" := JStr "DS"; "subFolder" := JStr "Arrays";
     "filename" := JStr "a.cpp"; "content" := JStr "x"; "action" := JStr "check" ]}.

Definition body_extra : gmap string json := <["admin" := JBool true]> body.

Definition body_no_filename : gmap string json := delete "filename" body.

Definition body_bad_action : gmap string json := <["action" := JStr "delete"]> body.

Definition body_both_wrong : gmap string json := <["content" := JStr ""]> body_bad_action.

Definition fetched : gmap string (list string) :=
  {[ "DS" := ["Arrays"; "Stack"]; "Patterns" := [] ]}.

(** The root holds the directories DS and __proto__; DS is listed as
    before, every other listing, that of __proto__ among them, is refused. *)
Definition listing_proto (url : string) (w : nat) : net_outcome GitHub.payload * nat :=
  if String.eqb url (API +:+ "/contents") then
    (Responded 200 (GitHub.Listing [dir "DS"; dir "__proto__"]), S w)
  else if String.eqb url (API +:+ "/contents/DS") then
    (Responded 200 (GitHub.Listing [dir "Arrays"; file "notes.md"; dir "Stack"]), S w)
  else
    (Responded 403 GitHub.Malformed, S w).

(** The root holds files only. *)
Definition listing_flat (url : string) (w : nat) : net_outcome GitHub.payload * nat :=
  (Responded 200 (GitHub.Listing [file "README.md"; file "LICENSE"]), S w).

(** A request whose filename is an object with a property named toString. *)
Definition body_object_name : gmap string json :=
  <["filename" := JObj [("toString", JBool true)]]> body.

End Scenario.

(** ** The gateway *)

Import Js Axios.

(** A folder tree: top-level folder name to the names of its subfolders,
    the own properties of the object that is serialised. *)
Abbreviation FolderTree := (gmap string (list string)).

(** [folderTree[name] = value] on a plain object, for [value] an array. The
    name [__proto__] reaches the setter of [Object.prototype]: the array
    becomes the prototype of the object and no property is created. Every
    other name gets an own property, also a name that the prototype chain
    knows, since what is found there is a writable data property. *)
Definition assign (name : string) (value : list string) (folderTree : FolderTree)
  : FolderTree :=
  if String.eqb name "__proto__" then folderTree else <[name := value]> folderTree.

(** What a handler sends back: [res.status(s).json(b)]; [res.json(b)] has
    status 200. *)
Inductive res_body : Type :=
| Folders (tree : FolderTree)
| ErrorBody (error : string)
| Data (data : json)
| HealthBody (status service cacheStatus : string).

Record res : Type := { res_status : Z; res_json : res_body }.

(** A request the gateway sent to one of its upstream services. *)
Inductive sent : Type :=
| Get (url : string)
| Post (url : string) (data : gmap string json).

Definition is_get (s : sent) : bool :=
  match s with Get _ => true | Post _ _ => false end.

Definition is_post (s : sent) : bool :=
  match s with Get _ => false | Post _ _ => true end.

Definition CACHE_TTL : Z := 5 * 60 * 1000.

Definition ACTIONS : list string := ["check"; "overwrite"; "version"; "reject"].

(** The fields a request must carry, and the fields that are forwarded. *)
Definition REQUIRED : list string := ["topFolder"; "subFolder"; "filename"; "content"].

Definition FIELDS : list string := REQUIRED ++ ["action"].

(** Membership of a given string in one of these lists, and its absence
    from the keys of an object literal. *)
Ltac in_list := unfold FIELDS, REQUIRED, ACTIONS; simpl; repeat constructor.

Ltac fresh_key :=
  simpl; rewrite ?not_elem_of_cons; repeat split; try discriminate; apply not_elem_of_nil.

(** An object literal as it is serialised: a property whose value is
    [undefined] is left out. *)
Definition object (props : list (string * value)) : gmap string json :=
  list_to_map (omap (fun p => pair (fst p) <$> snd p) props).

(** The object literal [{topFolder, subFolder, filename, content, action}]
    posted to the persistence service. *)
Definition forwarded (topFolder subFolder filename content action : value) : gmap string json :=
  object [("topFolder", topFolder); ("subFolder", subFolder);
          ("filename", filename); ("content", content); ("action", action)].

(** Fallback: static folder structure. *)
Definition getFallbackFolders : FolderTree :=
  {[ "DS" := ["Arrays"; "LinkedList"; "Stack"; "Queue"; "Tree"; "Graph"];
     "Patterns" := ["TwoPointers"; "SlidingWindow"; "BinarySearch"; "DFS"; "BFS"];
     "Algorithms" := ["Sorting"; "Searching"; "DynamicProgramming"];
     "Practice" := ["Easy"; "Medium"; "Hard"] ]}.

(** ** The form of the client

    The handlers of the React component that calls the gateway, as functions
    of the state they read. Text is held as the bytes of its UTF-8 encoding. *)

Module Client.

Import Js.

(** The white space and line terminators that [String.prototype.trim]
    removes, each as the bytes of its UTF-8 encoding: U+0009 to U+000D,
    U+0020, U+00A0, U+1680, U+2000 to U+200A, U+2028, U+2029, U+202F, U+205F,
    U+3000 and U+FEFF. *)
Definition WHITE_SPACE : list (list N) :=
  [ [9]; [10]; [11]; [12]; [13]; [32]; [194; 160]; [225; 154; 128];
    [226; 128; 128]; [226; 128; 129]; [226; 128; 130]; [226; 128; 131];
    [226; 128; 132]; [226; 128; 133]; [226; 128; 134]; [226; 128; 135];
    [226; 128; 136]; [226; 128; 137]; [226; 128; 138];
    [226; 128; 168]; [226; 128; 169]; [226; 128; 175]; [226; 129; 159];
    [227; 128; 128]; [239; 187; 191] ]%N.

(** [l] without its prefix [pat], when it starts with [pat]. *)
Definition strip_prefix (pat l : list N) : option (list N) :=
  if decide (take (length pat) l = pat) then Some (drop (length pat) l) else None.

(** [l] without the first of [pats] it starts with. *)
Fixpoint strip_one (pats : list (list N)) (l : list N) : option (list N) :=
  match pats with
  | [] => None
  | pat :: rest =>
      match strip_prefix pat l with
      | Some l' => Some l'
      | None => strip_one rest l
      end
  end.

(** Strip leading occurrences of [pats], at most [fuel] of them. *)
Fixpoint strip (pats : list (list N)) (fuel : nat) (l : list N) : list N :=
  match fuel with
  | O => l
  | S fuel' =>
      match strip_one pats l with
      | Some l' => strip pats fuel' l'
      | None => l
      end
  end.

Definition trimStart_bytes (l : list N) : list N :=
  strip WHITE_SPACE (length l) l.

Definition trimEnd_bytes (l : list N) : list N :=
  rev (strip (map (@rev N) WHITE_SPACE) (length l) (rev l)).

Definition bytes (s : string) : list N := map Ascii.N_of_ascii (String.list_ascii_of_string s).

Definition of_bytes (l : list N) : string := String.string_of_list_ascii (map Ascii.ascii_of_N l).

(** [s.trim()] *)
Definition trim (s : string) : string :=
  of_bytes (trimEnd_bytes (trimStart_bytes (bytes s))).

(** [!s] for a string. *)
Definition empty (s : string) : bool :=
  match s with
  | EmptyString => true
  | String _ _ => false
  end.

(** The state the handlers read. [folders] is the tree received from the
    gateway, [modalData] the request kept while the dialog is open. *)
Record form : Type := {
  title : string;
  code : string;
  topFolder : string;
  subFolder : string;
  folders : gmap string (list string);
  modalData : option (gmap string json)
}.

(** [handleTopFolderChange(value)], for [value] one of the options of the
    select, which are the keys of [folders]. *)
Definition handleTopFolderChange (f : form) (value : string) : form :=
  {| title := title f; code := code f;
     topFolder := value;
     subFolder := match folders f !! value with
                  | Some (first :: _) => first
                  | Some [] | None => ""
                  end;
     folders := folders f; modalData := modalData f |}.

(** The body [handleSubmit] posts to the gateway; [None] when it sets the
    status "All fields are required" and returns without a request. *)
Definition handleSubmit (f : form) : option (gmap string json) :=
  if empty (trim (title f)) || empty (trim (code f))
     || empty (topFolder f) || empty (subFolder f)
  then None
  else Some {[ "topFolder" := JStr (topFolder f);
               "subFolder" := JStr (subFolder f);
               "filename" := JStr (title f);
               "content" := JStr (code f);
               "action" := JStr "check" ]}.

(** The body [handleModalAction(action)] posts: [{ ...modalData, action }]. *)
Definition handleModalAction (f : form) (action : string) : gmap string json :=
  <["action" := JStr action]> (default ∅ (modalData f)).

(** The actions of the three buttons of the dialog. *)
Definition MODAL_ACTIONS : list string := ["overwrite"; "version"; "reject"].

(** A form ready to be submitted, and the same form while the dialog is
    open for the body it posted. *)
Definition sample : form :=
  {| title := "a.cpp"; code := "x"; topFolder := "DS"; subFolder := "Arrays";
     folders := Scenario.fetched; modalData := None |}.

Definition sample_conflict : form :=
  {| title := "a.cpp"; code := "x"; topFolder := "DS"; subFolder := "Arrays";
     folders := Scenario.fetched; modalData := Some Scenario.body |}.

End Client.


Section Gateway.

(** The state of everything outside the process, and how the two upstream
    services answer a request in a given state of it. *)
Context {W : Type}.
Variable GITHUB_API PYTHON_SERVICE : string.
Variable listing_service : string -> W -> net_outcome GitHub.payload * W.
Variable persistence_service :
  string -> gmap string json -> W -> net_outcome json * W.

(** The module-level variables [folderCache] and [cacheTimestamp] (both
    [null] at start), the outside world, and two ghost fields: the requests
    sent so far and the number of calls of [fetchFoldersFromGitHub]. *)
Record process : Type := {
  folderCache : option FolderTree;
  cacheTimestamp : option Z;
  world : W;
  trace : list sent;
  fetches : nat
}.

Definition M (A : Type) : Type := process -> A * process.

#[local] Instance M_ret : MRet M := fun A a p => (a, p).
#[local] Instance M_bind : MBind M :=
  fun A B f m p => let '(a, p') := m p in f a p'.

Definition axios_get (url : string) : M (completion GitHub.payload GitHub.payload) :=
  fun p =>
    let '(o, w) := listing_service url (world p) in
    (settle o,
     {| folderCache := folderCache p; cacheTimestamp := cacheTimestamp p;
        world := w; trace := trace p ++ [Get url]; fetches := fetches p |}).

Definition axios_post (url : string) (data : gmap string json) : M (completion json json) :=
  fun p =>
    let '(o, w) := persistence_service url data (world p) in
    (settle o,
     {| folderCache := folderCache p; cacheTimestamp := cacheTimestamp p;
        world := w; trace := trace p ++ [Post url data]; fetches := fetches p |}).

(** [folderCache = folders; cacheTimestamp = Date.now()] *)
Definition set_cache (folders : FolderTree) (now : Z) : M unit :=
  fun p =>
    (tt,
     {| folderCache := Some folders; cacheTimestamp := Some now;
        world := world p; trace := trace p; fetches := fetches p |}).

Definition count_fetch : M unit :=
  fun p =>
    (tt,
     {| folderCache := folderCache p; cacheTimestamp := cacheTimestamp p;
        world := world p; trace := trace p; fetches := S (fetches p) |}).

(** The body of the loop over [rootItems]: the inner try and its catch. *)
Definition fetch_subfolders (folderTree : FolderTree) (folder : GitHub.item) : M FolderTree :=
  subResponse ← axios_get (GITHUB_API +:+ "/contents/" +:+ GitHub.name folder);
  match subResponse with
  | Normal (GitHub.Listing data) =>
      let subFolders := map GitHub.name (filter GitHub.is_dir data) in
      mret (assign (GitHub.name folder) subFolders folderTree)
  | Normal GitHub.Malformed | Throw _ =>
      mret (assign (GitHub.name folder) [] folderTree)
  end.

Fixpoint for_each_folder (rootItems : list GitHub.item) (folderTree : FolderTree) : M FolderTree :=
  match rootItems with
  | [] => mret folderTree
  | folder :: rest =>
      folderTree' ← fetch_subfolders folderTree folder;
      for_each_folder rest folderTree'
  end.

(** Fetch folder tree from GitHub API. *)
Definition fetchFoldersFromGitHub : M (completion GitHub.payload FolderTree) :=
  _ ← count_fetch;
  response ← axios_get (GITHUB_API +:+ "/contents");
  match response with
  | Throw error => mret (Throw error)
  | Normal GitHub.Malformed => mret (Throw TypeError)
  | Normal (GitHub.Listing data) =>
      folderTree ← for_each_folder (filter GitHub.is_dir data) ∅;
      mret (Normal folderTree)
  end.

(** [folderCache && cacheTimestamp && (now - cacheTimestamp < CACHE_TTL)]:
    an object is truthy, a number is truthy unless it is zero. *)
Definition cache_hit (p : process) (now : Z) : bool :=
  match folderCache p, cacheTimestamp p with
  | Some _, Some ts => negb (ts =? 0) && (now - ts <? CACHE_TTL)
  | _, _ => false
  end.

(** GET /api/folders. [now] is the reading of the clock on entry, [now']
    the reading taken after a successful fetch. Nothing outside the inner
    try throws, so the outer catch and its 500 are never reached. *)
Definition get_folders (now now' : Z) : M res :=
  fun p =>
    match cache_hit p now, folderCache p with
    | true, Some cached => ({| res_status := 200; res_json := Folders cached |}, p)
    | _, _ =>
        (r ← fetchFoldersFromGitHub;
         match r with
         | Normal folders =>
             _ ← set_cache folders now';
             mret {| res_status := 200; res_json := Folders folders |}
         | Throw _ =>
             mret {| res_status := 200; res_json := Folders getFallbackFolders |}
         end) p
    end.

(** The catch block of POST /api/create-file. *)
Definition create_file_catch (error : Axios.error json) : res :=
  if bool_decide (code error = Some "ECONNREFUSED") then
    {| res_status := 503;
       res_json := ErrorBody "Python service not available. Is it running on port 5000?" |}
  else
    match response error with
    | Some (status, data) => {| res_status := status; res_json := Data data |}
    | None => {| res_status := 500; res_json := ErrorBody "Internal server error" |}
    end.

(** POST /api/create-file, on the parsed body of the request, an object.
    The template literal of the log line is evaluated between validation and
    the POST; an exception there is caught like one of the POST. *)
Definition create_file (body : gmap string json) : M res :=
  let topFolder := body !! "topFolder" in
  let subFolder := body !! "subFolder" in
  let filename := body !! "filename" in
  let content := body !! "content" in
  let action := body !! "action" in
  if negb (truthy topFolder) || negb (truthy subFolder)
     || negb (truthy filename) || negb (truthy content) then
    mret {| res_status := 400; res_json := ErrorBody "Missing required fields" |}
  else if negb (includes ACTIONS action) then
    mret {| res_status := 400; res_json := ErrorBody "Invalid action" |}
  else
    pythonResponse ←
      (if template_throws topFolder || template_throws subFolder
          || template_throws filename
       then mret (Throw TypeError)
       else axios_post (PYTHON_SERVICE +:+ "/create-file")
              (forwarded topFolder subFolder filename content action));
    match pythonResponse with
    | Normal data => mret {| res_status := 200; res_json := Data data |}
    | Throw error => mret (create_file_catch error)
    end.

(** Health check. *)
Definition health : M res :=
  fun p =>
    ({| res_status := 200;
        res_json := HealthBody "ok" "node-gateway"
                      (match folderCache p with
                       | Some _ => "loaded"
                       | None => "empty"
                       end) |}, p).

(** The routes. *)
Inductive request : Type :=
| GetFolders (now now' : Z)
| PostCreateFile (body : gmap string json)
| GetHealth.

Definition handle (r : request) : M res :=
  match r with
  | GetFolders now now' => get_folders now now'
  | PostCreateFile body => create_file body
  | GetHealth => health
  end.

(** Requests served one after the other. *)
Fixpoint serve (rs : list request) : M (list res) :=
  match rs with
  | [] => mret []
  | r :: rest =>
      a ← handle r;
      answers ← serve rest;
      mret (a :: answers)
  end.

(** ** Vocabulary of the specification *)

(** A required field that is missing or the empty string. *)
Definition missing_or_empty (v : value) : Prop :=
  v = None ∨ v = Some (JStr "").

(** A required field that is a non-empty string. *)
Definition nonempty_string (v : value) : Prop :=
  ∃ s, v = Some (JStr s) ∧ s ≠ "".

(** [action] is one of check, overwrite, version, reject. *)
Definition valid_action (v : value) : Prop :=
  ∃ a, a ∈ ACTIONS ∧ v = Some (JStr a).

(** A well-formed CreationRequest. *)
Definition well_formed (body : gmap string json) : Prop :=
  (∀ k, k ∈ REQUIRED → nonempty_string (body !! k)) ∧ valid_action (body !! "action").

(** The answer of the persistence service to the request that [create_file]
    forwards for [body], in the current state of the world. *)
Definition persistence_answer (body : gmap string json) (p : process) : net_outcome json :=
  fst (persistence_service (PYTHON_SERVICE +:+ "/create-file")
         (forwarded (body !! "topFolder") (body !! "subFolder") (body !! "filename")
            (body !! "content") (body !! "action"))
         (world p)).

(** The answer of the listing service to a GET of [url]. *)
Definition listing_answer (url : string) (w : W) : completion GitHub.payload GitHub.payload :=
  settle (fst (listing_service url w)).

(** The URLs of the two kinds of listing requests. *)
Definition root_url : string := GITHUB_API +:+ "/contents".

Definition subfolder_url (folder : string) : string :=
  GITHUB_API +:+ "/contents/" +:+ folder.

(** The names of the directory entries of a listing. *)
Definition dir_names (data : list GitHub.item) : list string :=
  map GitHub.name (filter GitHub.is_dir data).

(** A listing request fails: rejected by the client, or answered with a body
    that is not a listing. *)
Definition listing_failed (c : completion GitHub.payload GitHub.payload) : Prop :=
  ∀ data, c ≠ Normal (GitHub.Listing data).

(** The subfolder list recorded for a folder whose listing was answered [c]. *)
Definition recorded (c : completion GitHub.payload GitHub.payload) : list string :=
  match c with
  | Normal (GitHub.Listing data) => dir_names data
  | Normal GitHub.Malformed | Throw _ => []
  end.

(** The answer of the listing service to the request for [folder] in the
    fetch started in state [p], once the root and the folders [before] have
    been listed. *)
Definition fetch_answer (p : process) (before : list GitHub.item) (folder : GitHub.item)
  : completion GitHub.payload GitHub.payload :=
  listing_answer (subfolder_url (GitHub.name folder))
    (world (snd (for_each_folder before ∅ (snd (axios_get root_url (snd (count_fetch p))))))).

(** The cache variables of two states are the same. *)
Definition same_cache (p p' : process) : Prop :=
  folderCache p' = folderCache p ∧ cacheTimestamp p' = cacheTimestamp p.

Definition ok_folders (tree : FolderTree) : res :=
  {| res_status := 200; res_json := Folders tree |}.


(** What [create_file] does once validation has passed and the log line has
    been built: one POST, and the answer translated. *)
Definition forward (body : gmap string json) (p : process) : res * process :=
  let url := PYTHON_SERVICE +:+ "/create-file" in
  let data := forwarded (body !! "topFolder") (body !! "subFolder") (body !! "filename")
                (body !! "content") (body !! "action") in
  (match settle (persistence_answer body p) with
   | Normal d => {| res_status := 200; res_json := Data d |}
   | Throw e => create_file_catch e
   end,
   {| folderCache := folderCache p; cacheTimestamp := cacheTimestamp p;
      world := snd (persistence_service url data (world p));
      trace := trace p ++ [Post url data]; fetches := fetches p |}).

(** A run of requests all of whose folder listings arrive while the entry
    fetched at [ts] is younger than the TTL. *)
Definition within_ttl (ts : Z) (rs : list request) : Prop :=
  ∀ now now', GetFolders now now' ∈ rs → now - ts < CACHE_TTL.

(** The process as it starts, in a world [w]. *)
Definition start (w : W) : process :=
  {| folderCache := None; cacheTimestamp := None; world := w; trace := []; fetches := O |}.

(** The process with nothing sent yet and a tree cached at [ts]. *)
Definition cached (tree : FolderTree) (ts : Z) (w : W) : process :=
  {| folderCache := Some tree; cacheTimestamp := Some ts; world := w;
     trace := []; fetches := O |}.

(** The states the process can be in: the initial one, and those reached by
    serving a request. *)
Inductive reachable : process -> Prop :=
| reachable_start w : reachable (start w)
| reachable_step r p : reachable p -> reachable (snd (handle r p)).

(** ** Proof steps used throughout *)

Ltac run := unfold mbind, mret, M_bind, M_ret in *; simpl in *.

(** ** Validation and forwarding *)

Lemma truthy_missing_or_empty v : missing_or_empty v → truthy v = false.
Proof. intros [-> | ->]; reflexivity. Qed.

Lemma truthy_nonempty_string v : nonempty_string v → truthy v = true.
Proof. intros (s & -> & Hs). destruct s; [done | reflexivity]. Qed.

Lemma template_nonempty_string v : nonempty_string v → template_throws v = false.
Proof. intros (s & -> & _). reflexivity. Qed.

Lemma includes_valid_action v : includes ACTIONS v = true ↔ valid_action v.
Proof.
  unfold includes, valid_action. split.
  - destruct v as [[| | | s | |]|]; try discriminate.
    intros H%bool_decide_eq_true. eauto.
  - intros (a & Ha & ->). by apply bool_decide_eq_true.
Qed.

Lemma includes_invalid_action v : ¬ valid_action v → includes ACTIONS v = false.
Proof.
  intros H. destruct (includes ACTIONS v) eqn:E; [|done].
  by apply includes_valid_action in E.
Qed.

Lemma create_file_missing body p :
  (∃ k, k ∈ REQUIRED ∧ truthy (body !! k) = false) →
  create_file body p =
    ({| res_status := 400; res_json := ErrorBody "Missing required fields" |}, p).
Proof.
  intros (k & Hk & Hf). unfold create_file, REQUIRED in *.
  repeat (apply elem_of_cons in Hk as [-> | Hk]);
    try (rewrite Hf; simpl; rewrite ?orb_true_r; reflexivity).
  by apply elem_of_nil in Hk.
Qed.

Lemma create_file_invalid_action body p :
  (∀ k, k ∈ REQUIRED → truthy (body !! k) = true) →
  ¬ valid_action (body !! "action") →
  create_file body p =
    ({| res_status := 400; res_json := ErrorBody "Invalid action" |}, p).
Proof.
  intros Hr Ha. unfold create_file.
  rewrite !Hr by in_list.
  rewrite (includes_invalid_action _ Ha). reflexivity.
Qed.

(** C1. A request in which topFolder, subFolder, filename or content is
    missing or the empty string, or whose action is not one of check,
    overwrite, version, reject, is answered 400 with an error, and the
    process, the world and the trace of sent requests are left as they were:
    nothing is sent to the persistence service. *)
Theorem create_file_rejects_malformed body p :
  (∃ k, k ∈ REQUIRED ∧ missing_or_empty (body !! k)) ∨ ¬ valid_action (body !! "action") →
  ∃ error,
    create_file body p = ({| res_status := 400; res_json := ErrorBody error |}, p)
    ∧ trace (snd (create_file body p)) = trace p
    ∧ world (snd (create_file body p)) = world p.
Proof.
  intros H.
  assert (∃ error, create_file body p =
            ({| res_status := 400; res_json := ErrorBody error |}, p)) as (error & E).
  { destruct H as [(k & Hk & Hm) | Ha].
    - eexists. apply create_file_missing. eauto using truthy_missing_or_empty.
    - destruct (decide (Forall (λ k, truthy (body !! k) = true) REQUIRED)) as [Hr | Hr].
      + eexists. apply create_file_invalid_action; [| done].
        by apply Forall_forall.
      + eexists. apply create_file_missing.
        apply not_Forall_Exists in Hr; [| apply _].
        apply Exists_exists in Hr as (k & Hk & Hf).
        exists k. split; [done |]. by apply not_true_is_false. }
  exists error. by rewrite E.
Qed.

Lemma create_file_cases body p :
  (∃ r, create_file body p = (r, p)) ∨
  ((∀ k, k ∈ REQUIRED → truthy (body !! k) = true)
   ∧ valid_action (body !! "action")
   ∧ create_file body p = forward body p).
Proof.
  unfold create_file, forward, persistence_answer.
  destruct (truthy (body !! "topFolder")) eqn:E1; [| left; eauto].
  destruct (truthy (body !! "subFolder")) eqn:E2; [| left; eauto].
  destruct (truthy (body !! "filename")) eqn:E3; [| left; eauto].
  destruct (truthy (body !! "content")) eqn:E4; [| left; eauto].
  destruct (includes ACTIONS (body !! "action")) eqn:E5; [| left; eauto].
  simpl.
  destruct (template_throws (body !! "topFolder") || template_throws (body !! "subFolder")
            || template_throws (body !! "filename")) eqn:E6.
  { left. run. eauto. }
  right. split; [| split].
  - intros k Hk. unfold REQUIRED in Hk.
    repeat (apply elem_of_cons in Hk as [-> | Hk]); try done.
    by apply elem_of_nil in Hk.
  - by apply includes_valid_action.
  - run. unfold axios_post.
    destruct (persistence_service _ _ _) as [o w]. simpl.
    by destruct (settle o).
Qed.

Lemma create_file_well_formed body p :
  well_formed body → create_file body p = forward body p.
Proof.
  intros [Hr Ha]. unfold create_file.
  rewrite !truthy_nonempty_string by (apply Hr; in_list).
  rewrite !template_nonempty_string by (apply Hr; in_list).
  apply includes_valid_action in Ha as ->. simpl.
  run. unfold axios_post, forward, persistence_answer.
  destruct (persistence_service _ _ _) as [o w]. simpl.
  by destruct (settle o).
Qed.

Lemma status_code_not_refused status : status_code status ≠ Some "ECONNREFUSED".
Proof. unfold status_code. by repeat case_match. Qed.

(** C10. The four required fields are checked before the action: with an
    action that is not in the enumeration (or absent), a request in which
    some required field is missing or empty gets the missing-fields error,
    and a request whose four required fields are non-empty strings gets the
    invalid-action error; both with status 400. *)
Theorem validation_order body p :
  ¬ valid_action (body !! "action") →
  ((∃ k, k ∈ REQUIRED ∧ missing_or_empty (body !! k)) →
   create_file body p =
     ({| res_status := 400; res_json := ErrorBody "Missing required fields" |}, p))
  ∧ ((∀ k, k ∈ REQUIRED → nonempty_string (body !! k)) →
     create_file body p =
       ({| res_status := 400; res_json := ErrorBody "Invalid action" |}, p)).
Proof.
  intros Ha. split.
  - intros (k & Hk & Hm). apply create_file_missing.
    eauto using truthy_missing_or_empty.
  - intros Hr. apply create_file_invalid_action; [| done].
    eauto using truthy_nonempty_string.
Qed.

(** C5. For a well-formed request, when the persistence service answers with
    a status outside 200..299 and a body, the gateway answers with that status
    and that body; when it answers with a 2xx status, the gateway answers 200
    with the data of the answer. *)
Theorem create_file_pass_through body p status data :
  well_formed body →
  persistence_answer body p = Responded status data →
  (validateStatus status = false →
   fst (create_file body p) = {| res_status := status; res_json := Data data |})
  ∧ (validateStatus status = true →
     fst (create_file body p) = {| res_status := 200; res_json := Data data |}).
Proof.
  intros Hwf Hans. rewrite create_file_well_formed by done.
  unfold forward. simpl. rewrite Hans. simpl.
  split; intros ->; [| done]. simpl.
  unfold create_file_catch. simpl.
  rewrite bool_decide_eq_false_2; [done | apply status_code_not_refused].
Qed.

(** C4, as amended. For a well-formed request whose forwarding gets no
    answer from the persistence service, the gateway answers 503 with an
    error message when the failure is a refused connection (ECONNREFUSED);
    for any other failure without an answer, such as a timeout that ran out
    (ECONNABORTED), it answers 500 with the generic internal error. *)
Theorem create_file_no_answer body p c :
  well_formed body →
  persistence_answer body p = NoResponse c →
  fst (create_file body p) =
    if bool_decide (c = "ECONNREFUSED") then
      {| res_status := 503;
         res_json := ErrorBody "Python service not available. Is it running on port 5000?" |}
    else
      {| res_status := 500; res_json := ErrorBody "Internal server error" |}.
Proof.
  intros Hwf Hans. rewrite create_file_well_formed by done.
  unfold forward. simpl. rewrite Hans. simpl.
  unfold create_file_catch. simpl.
  destruct (decide (c = "ECONNREFUSED")) as [-> | Hc].
  - by rewrite !bool_decide_eq_true_2.
  - rewrite !bool_decide_eq_false_2; [done | done | congruence].
Qed.

Lemma object_cons_some k j props : object ((k, Some j) :: props) = <[k := j]> (object props).
Proof. reflexivity. Qed.

Lemma object_cons_none k props : object ((k, None) :: props) = object props.
Proof. reflexivity. Qed.

Lemma object_lookup_fresh k props :
  k ∉ props.*1 → object props !! k = None.
Proof.
  induction props as [| [k' [j |]] props IH]; intros Hk.
  - apply lookup_empty.
  - rewrite object_cons_some. rewrite fmap_cons in Hk. simpl in Hk.
    apply not_elem_of_cons in Hk as [Hne Hk].
    rewrite lookup_insert_ne by done. by apply IH.
  - rewrite object_cons_none. rewrite fmap_cons in Hk.
    apply not_elem_of_cons in Hk as [_ Hk]. by apply IH.
Qed.

Lemma object_lookup_head k v props :
  k ∉ props.*1 → object ((k, v) :: props) !! k = v.
Proof.
  intros Hk. destruct v as [j |].
  - rewrite object_cons_some. apply lookup_insert_eq.
  - rewrite object_cons_none. by apply object_lookup_fresh.
Qed.

Lemma object_lookup_tail k k' v props :
  k ≠ k' → object ((k', v) :: props) !! k = object props !! k.
Proof.
  intros Hk. destruct v as [j |].
  - rewrite object_cons_some. by apply lookup_insert_ne.
  - by rewrite object_cons_none.
Qed.

(** The posted object has the five fields of the body and nothing else. *)
Lemma forwarded_lookup (body : gmap string json) k :
  forwarded (body !! "topFolder") (body !! "subFolder") (body !! "filename")
    (body !! "content") (body !! "action") !! k
  = if bool_decide (k ∈ FIELDS) then body !! k else None.
Proof.
  unfold forwarded.
  destruct (decide (k = "topFolder")) as [-> | N1].
  { rewrite object_lookup_head; [done | fresh_key]. }
  rewrite object_lookup_tail by done.
  destruct (decide (k = "subFolder")) as [-> | N2].
  { rewrite object_lookup_head; [done | fresh_key]. }
  rewrite object_lookup_tail by done.
  destruct (decide (k = "filename")) as [-> | N3].
  { rewrite object_lookup_head; [done | fresh_key]. }
  rewrite object_lookup_tail by done.
  destruct (decide (k = "content")) as [-> | N4].
  { rewrite object_lookup_head; [done | fresh_key]. }
  rewrite object_lookup_tail by done.
  destruct (decide (k = "action")) as [-> | N5].
  { rewrite object_lookup_head; [done | fresh_key]. }
  rewrite object_lookup_tail by done.
  rewrite bool_decide_eq_false_2; [apply lookup_empty |].
  unfold FIELDS, REQUIRED. simpl. rewrite !elem_of_cons, elem_of_nil.
  by intros [? | [? | [? | [? | [? | []]]]]].
Qed.

Lemma truthy_is_Some v : truthy v = true → is_Some v.
Proof. destruct v; [eauto | discriminate]. Qed.

Lemma create_file_agree b1 b2 :
  (∀ k, k ∈ FIELDS → b1 !! k = b2 !! k) → create_file b1 = create_file b2.
Proof.
  intros H. unfold create_file.
  rewrite (H "topFolder"), (H "subFolder"), (H "filename"), (H "content"), (H "action")
    by in_list.
  reflexivity.
Qed.

(** C9. Two request bodies that agree on topFolder, subFolder, filename,
    content and action are treated alike whatever else they contain: same
    answer, same request sent, same resulting state. When a request is sent
    to the persistence service it is one POST whose object has exactly those
    five fields, with the values of the body. *)
Theorem create_file_only_five_fields b1 b2 p :
  (∀ k, k ∈ FIELDS → b1 !! k = b2 !! k) →
  create_file b1 p = create_file b2 p
  ∧ (trace (snd (create_file b1 p)) = trace p
     ∨ ∃ url data,
         trace (snd (create_file b1 p)) = trace p ++ [Post url data]
         ∧ (∀ k, is_Some (data !! k) ↔ k ∈ FIELDS)
         ∧ (∀ k, k ∈ FIELDS → data !! k = b1 !! k ∧ data !! k = b2 !! k)).
Proof.
  intros H. split; [by rewrite (create_file_agree b1 b2) |].
  destruct (create_file_cases b1 p) as [[r ->] | (Hr & Ha & ->)]; [by left |].
  right. unfold forward. simpl. do 2 eexists. split; [reflexivity |].
  split; intros k.
  - rewrite forwarded_lookup. case_bool_decide as Hk; [| split; [by intros [? ?] | done]].
    split; [done | intros _].
    unfold FIELDS in Hk. apply elem_of_app in Hk as [Hk | Hk].
    + by apply truthy_is_Some, Hr.
    + apply list_elem_of_singleton in Hk as ->.
      destruct Ha as (a & _ & ->). eauto.
  - intros Hk. rewrite forwarded_lookup, bool_decide_eq_true_2 by done.
    split; [done | by apply H].
Qed.

(** ** The fetch of the folder tree *)

Lemma recorded_failed c : listing_failed c → recorded c = [].
Proof.
  unfold listing_failed. intros H.
  destruct c as [[data |] | e]; [| done | done]. by destruct (H data).
Qed.

Lemma assign_lookup name value (folderTree : FolderTree) k :
  assign name value folderTree !! k =
    if bool_decide (k = name ∧ name ≠ "__proto__") then Some value else folderTree !! k.
Proof.
  unfold assign. destruct (String.eqb_spec name "__proto__") as [-> | Hne].
  - rewrite bool_decide_eq_false_2; [done | by intros [_ ?]].
  - case_bool_decide as Hk.
    + destruct Hk as [-> _]. apply lookup_insert_eq.
    + apply lookup_insert_ne. intros <-. by apply Hk.
Qed.

Lemma fetch_subfolders_spec folderTree folder p :
  fetch_subfolders folderTree folder p =
    (assign (GitHub.name folder)
       (recorded (listing_answer (subfolder_url (GitHub.name folder)) (world p))) folderTree,
     snd (axios_get (subfolder_url (GitHub.name folder)) p)).
Proof.
  unfold fetch_subfolders, listing_answer, subfolder_url. run. unfold axios_get.
  destruct (listing_service _ _) as [o w]. simpl.
  by destruct (settle o) as [[data |] | e].
Qed.

Lemma axios_get_frame url p :
  same_cache p (snd (axios_get url p))
  ∧ fetches (snd (axios_get url p)) = fetches p
  ∧ filter is_post (trace (snd (axios_get url p))) = filter is_post (trace p).
Proof.
  unfold axios_get, same_cache. destruct (listing_service _ _) as [o w]. simpl.
  repeat split. rewrite filter_app. simpl. apply app_nil_r.
Qed.

Lemma for_each_folder_frame rootItems folderTree p :
  same_cache p (snd (for_each_folder rootItems folderTree p))
  ∧ fetches (snd (for_each_folder rootItems folderTree p)) = fetches p.
Proof.
  revert folderTree p. induction rootItems as [| folder rest IH]; intros folderTree p.
  - by split.
  - simpl. run. rewrite fetch_subfolders_spec.
    destruct (IH (assign (GitHub.name folder)
                    (recorded (listing_answer (subfolder_url (GitHub.name folder)) (world p)))
                    folderTree)
                (snd (axios_get (subfolder_url (GitHub.name folder)) p)))
      as ([E1 E2] & E3).
    destruct (axios_get_frame (subfolder_url (GitHub.name folder)) p) as ([F1 F2] & F3 & _).
    unfold same_cache. rewrite E1, E2, E3. by repeat split.
Qed.

(** The loop touches no key but the names of [rootItems], and never the
    key [__proto__]. *)
Lemma for_each_folder_other rootItems folderTree p k :
  k ∉ map GitHub.name rootItems ∨ k = "__proto__" →
  fst (for_each_folder rootItems folderTree p) !! k = folderTree !! k.
Proof.
  revert folderTree p. induction rootItems as [| folder rest IH]; intros folderTree p Hk;
    simpl; [done |].
  run. rewrite fetch_subfolders_spec. rewrite IH.
  - rewrite assign_lookup. rewrite bool_decide_eq_false_2; [done |].
    intros [-> Hne]. destruct Hk as [Hk | Hk]; [| done].
    apply Hk. simpl. left.
  - destruct Hk as [Hk | Hk]; [| by right]. left.
    simpl in Hk. by apply not_elem_of_cons in Hk as [_ ?].
Qed.

Lemma for_each_folder_app before after folderTree p :
  for_each_folder (before ++ after) folderTree p =
    for_each_folder after (fst (for_each_folder before folderTree p))
      (snd (for_each_folder before folderTree p)).
Proof.
  revert folderTree p. induction before as [| folder rest IH]; intros folderTree p;
    simpl; [done |].
  run. rewrite fetch_subfolders_spec. apply IH.
Qed.

(** A folder that is not listed again later in the loop, and is not named
    [__proto__], ends with the entry recorded from the answer to its own
    request. *)
Lemma for_each_folder_last before folder after folderTree p :
  GitHub.name folder ∉ map GitHub.name after →
  GitHub.name folder ≠ "__proto__" →
  fst (for_each_folder (before ++ folder :: after) folderTree p) !! GitHub.name folder
  = Some (recorded (listing_answer (subfolder_url (GitHub.name folder))
                      (world (snd (for_each_folder before folderTree p))))).
Proof.
  intros Hlast Hne. rewrite for_each_folder_app. simpl. run.
  rewrite fetch_subfolders_spec. rewrite for_each_folder_other by (by left).
  rewrite assign_lookup. by rewrite bool_decide_eq_true_2.
Qed.

(** The last place at which a name occurs in a list of entries. *)
Lemma last_occurrence (items : list GitHub.item) k :
  k ∈ map GitHub.name items →
  ∃ before folder after,
    items = before ++ folder :: after ∧ GitHub.name folder = k
    ∧ k ∉ map GitHub.name after.
Proof.
  induction items as [| i items IH]; simpl; [by intros ?%elem_of_nil |].
  intros Hk. destruct (decide (k ∈ map GitHub.name items)) as [Hin | Hout].
  - destruct (IH Hin) as (before & folder & after & -> & Hn & Ha).
    by exists (i :: before), folder, after.
  - apply elem_of_cons in Hk as [-> | Hk]; [| done].
    by exists [], i, items.
Qed.

Lemma dir_entry_names (data : list GitHub.item) k :
  k ∈ map GitHub.name (filter GitHub.is_dir data)
  ↔ ∃ i, i ∈ data ∧ GitHub.type i = "dir" ∧ GitHub.name i = k.
Proof.
  rewrite list_elem_of_fmap. split.
  - intros (i & -> & [Hd Hi]%list_elem_of_filter). exists i.
    split; [done |]. split; [| done].
    unfold GitHub.is_dir in Hd. by apply Is_true_true, String.eqb_eq in Hd.
  - intros (i & Hi & Ht & <-). exists i. split; [done |].
    apply list_elem_of_filter. split; [| done].
    unfold GitHub.is_dir. by rewrite Ht.
Qed.

Lemma fetch_unfold p :
  fetchFoldersFromGitHub p =
    match listing_answer root_url (world p) with
    | Throw e => (Throw e, snd (axios_get root_url (snd (count_fetch p))))
    | Normal GitHub.Malformed => (Throw TypeError, snd (axios_get root_url (snd (count_fetch p))))
    | Normal (GitHub.Listing data) =>
        let '(tree, p') := for_each_folder (filter GitHub.is_dir data) ∅
                             (snd (axios_get root_url (snd (count_fetch p)))) in
        (Normal tree, p')
    end.
Proof.
  unfold fetchFoldersFromGitHub, listing_answer, root_url. run. unfold axios_get. simpl.
  destruct (listing_service _ _) as [o w]. simpl.
  by destruct (settle o) as [[data |] | e].
Qed.

Lemma fetch_frame p :
  same_cache p (snd (fetchFoldersFromGitHub p))
  ∧ fetches (snd (fetchFoldersFromGitHub p)) = S (fetches p).
Proof.
  rewrite fetch_unfold.
  destruct (axios_get_frame root_url (snd (count_fetch p))) as ([F1 F2] & F3 & _).
  simpl in *.
  destruct (listing_answer root_url (world p)) as [[data |] | e]; simpl;
    try (unfold same_cache; by rewrite F1, F2, F3).
  pose proof (for_each_folder_frame (filter GitHub.is_dir data) ∅
                (snd (axios_get root_url (snd (count_fetch p))))) as ([E1 E2] & E3).
  destruct (for_each_folder _ _ _) as [tree p']. simpl in *.
  unfold same_cache. by rewrite E1, E2, E3, F1, F2, F3.
Qed.

(** The fetch fails exactly when the listing of the root fails. *)
Lemma fetch_fails_iff p :
  (∀ tree, fst (fetchFoldersFromGitHub p) ≠ Normal tree)
  ↔ listing_failed (listing_answer root_url (world p)).
Proof.
  rewrite fetch_unfold. unfold listing_failed.
  destruct (listing_answer root_url (world p)) as [[data |] | e]; simpl.
  - destruct (for_each_folder _ _ _) as [tree p']. simpl.
    split; intros H; [by destruct (H tree) | by destruct (H data)].
  - split; done.
  - split; done.
Qed.

(** X16. When the listing of the root succeeds, the fetch succeeds whatever
    happens to the listings of the folders. The tree has a key exactly for
    the entries of the root of type dir that are not named [__proto__]. Such
    a folder, at its last place in the listing, is mapped by what the listing
    service answered to its own request in this fetch: to the names of the
    entries of type dir of that answer, in their order, or to the empty list
    when that request failed. *)
Theorem fetch_records_each_folder p data :
  listing_answer root_url (world p) = Normal (GitHub.Listing data) →
  ∃ tree,
    fst (fetchFoldersFromGitHub p) = Normal tree
    ∧ (∀ k, is_Some (tree !! k) ↔
            k ≠ "__proto__" ∧ ∃ i, i ∈ data ∧ GitHub.type i = "dir" ∧ GitHub.name i = k)
    ∧ (∀ before folder after,
         filter GitHub.is_dir data = before ++ folder :: after →
         GitHub.name folder ∉ map GitHub.name after →
         GitHub.name folder ≠ "__proto__" →
         (∀ sub, fetch_answer p before folder = Normal (GitHub.Listing sub) →
            tree !! GitHub.name folder
            = Some (map GitHub.name (filter GitHub.is_dir sub)))
         ∧ (listing_failed (fetch_answer p before folder) →
            tree !! GitHub.name folder = Some [])).
Proof.
  intros Hroot. rewrite fetch_unfold, Hroot. unfold fetch_answer.
  set (p1 := snd (axios_get root_url (snd (count_fetch p)))).
  pose proof (for_each_folder_other (filter GitHub.is_dir data) ∅ p1) as Hother.
  pose proof (λ before folder after, for_each_folder_last before folder after ∅ p1) as Hlast.
  destruct (for_each_folder (filter GitHub.is_dir data) ∅ p1) as [tree p'] eqn:Hrun.
  simpl in *. exists tree. split; [done |]. split.
  - intros k. rewrite <- dir_entry_names. split.
    + intros Hk. split.
      * intros ->. rewrite Hother, lookup_empty in Hk by (by right). by destruct Hk.
      * destruct (decide (k ∈ map GitHub.name (filter GitHub.is_dir data))); [done |].
        rewrite Hother, lookup_empty in Hk by (by left). by destruct Hk.
    + intros [Hne (before & folder & after & Hsplit & <- & Ha)%last_occurrence].
      specialize (Hlast before folder after Ha Hne).
      rewrite <- Hsplit, Hrun in Hlast. simpl in Hlast. rewrite Hlast. eauto.
  - intros before folder after Hsplit Ha Hne.
    specialize (Hlast before folder after Ha Hne).
    rewrite <- Hsplit, Hrun in Hlast. simpl in Hlast. rewrite Hlast. split.
    + by intros sub ->.
    + intros Hfail. by rewrite recorded_failed.
Qed.

(** ** The folder listing and its cache *)

Lemma cache_hit_true p now :
  cache_hit p now = true ↔
  ∃ tree ts, folderCache p = Some tree ∧ cacheTimestamp p = Some ts
             ∧ ts ≠ 0 ∧ now - ts < CACHE_TTL.
Proof.
  unfold cache_hit. split.
  - destruct (folderCache p) as [tree |], (cacheTimestamp p) as [ts |]; try discriminate.
    intros [Hz Hlt]%andb_true_iff. exists tree, ts.
    apply negb_true_iff, Z.eqb_neq in Hz. apply Z.ltb_lt in Hlt. done.
  - intros (tree & ts & -> & -> & Hz & Hlt).
    apply andb_true_iff. split; [by apply negb_true_iff, Z.eqb_neq | by apply Z.ltb_lt].
Qed.

Lemma get_folders_hit p now now' tree :
  cache_hit p now = true → folderCache p = Some tree →
  get_folders now now' p = (ok_folders tree, p).
Proof. intros Hhit Hc. unfold get_folders. by rewrite Hhit, Hc. Qed.

Lemma get_folders_miss p now now' :
  cache_hit p now = false →
  get_folders now now' p =
    match fetchFoldersFromGitHub p with
    | (Normal folders, p1) => (ok_folders folders, snd (set_cache folders now' p1))
    | (Throw _, p1) => (ok_folders getFallbackFolders, p1)
    end.
Proof.
  intros Hmiss. unfold get_folders. rewrite Hmiss. run.
  destruct (fetchFoldersFromGitHub p) as [[folders | e] p1]; reflexivity.
Qed.

Lemma fallback_not_empty : getFallbackFolders ≠ ∅.
Proof.
  intros H. assert (getFallbackFolders !! "DS" = None) as E by (by rewrite H).
  vm_compute in E. discriminate.
Qed.

(** C3. When the cache does not answer and the fetch from the listing
    service fails, the listing is answered 200 with the fallback tree, which
    is not empty, and [folderCache] and [cacheTimestamp] keep their values. *)
Theorem folders_fallback_on_failure p now now' :
  cache_hit p now = false →
  (∀ tree, fst (fetchFoldersFromGitHub p) ≠ Normal tree) →
  fst (get_folders now now' p) = {| res_status := 200; res_json := Folders getFallbackFolders |}
  ∧ getFallbackFolders ≠ ∅
  ∧ folderCache (snd (get_folders now now' p)) = folderCache p
  ∧ cacheTimestamp (snd (get_folders now now' p)) = cacheTimestamp p.
Proof.
  intros Hmiss Hfail. rewrite get_folders_miss by done.
  destruct (fetch_frame p) as ([E1 E2] & _).
  destruct (fetchFoldersFromGitHub p) as [[folders | e] p1]; simpl in *.
  - by destruct (Hfail folders).
  - split; [done |]. split; [apply fallback_not_empty | done].
Qed.

Lemma create_file_frame body p :
  same_cache p (snd (create_file body p))
  ∧ fetches (snd (create_file body p)) = fetches p
  ∧ filter is_get (trace (snd (create_file body p))) = filter is_get (trace p).
Proof.
  destruct (create_file_cases body p) as [[r ->] | (_ & _ & ->)]; [done |].
  unfold forward, same_cache. simpl. repeat split.
  rewrite filter_app. simpl. apply app_nil_r.
Qed.

Lemma get_folders_cache now now' p :
  same_cache p (snd (get_folders now now' p))
  ∨ ∃ folders,
      cache_hit p now = false
      ∧ fst (fetchFoldersFromGitHub p) = Normal folders
      ∧ folderCache (snd (get_folders now now' p)) = Some folders
      ∧ cacheTimestamp (snd (get_folders now now' p)) = Some now'
      ∧ fst (get_folders now now' p) = ok_folders folders.
Proof.
  destruct (cache_hit p now) eqn:Hhit.
  - apply cache_hit_true in Hhit as Hc. destruct Hc as (tree & ts & Hc & _).
    rewrite (get_folders_hit p now now' tree) by done. by left.
  - rewrite get_folders_miss by done.
    destruct (fetch_frame p) as (Hsame & _).
    destruct (fetchFoldersFromGitHub p) as [[folders | e] p1] eqn:E; simpl in *.
    + right. by exists folders.
    + by left.
Qed.

(** C7. Serving a request leaves [folderCache] and [cacheTimestamp] as they
    were, except for a folder listing that missed the cache and whose fetch
    succeeded. Such a listing always stores the fetched tree and the clock
    reading taken after the fetch, whatever the cache held before, and
    answers with that tree. Creating a file, the health check, a cache hit
    and the fallback never write the cache, and no request ever resets a
    variable that is set. *)
Theorem cache_written_only_by_fetch r p :
  (same_cache p (snd (handle r p))
   ∨ ∃ now now' folders,
       r = GetFolders now now'
       ∧ cache_hit p now = false
       ∧ fst (fetchFoldersFromGitHub p) = Normal folders
       ∧ folderCache (snd (handle r p)) = Some folders
       ∧ cacheTimestamp (snd (handle r p)) = Some now'
       ∧ fst (handle r p) = {| res_status := 200; res_json := Folders folders |})
  ∧ (is_Some (folderCache p) → is_Some (folderCache (snd (handle r p))))
  ∧ (is_Some (cacheTimestamp p) → is_Some (cacheTimestamp (snd (handle r p))))
  ∧ (∀ now now' folders,
       r = GetFolders now now' →
       cache_hit p now = false →
       fst (fetchFoldersFromGitHub p) = Normal folders →
       folderCache (snd (handle r p)) = Some folders
       ∧ cacheTimestamp (snd (handle r p)) = Some now'
       ∧ fst (handle r p) = {| res_status := 200; res_json := Folders folders |})
  ∧ (∀ body, r = PostCreateFile body → same_cache p (snd (handle r p)))
  ∧ (r = GetHealth → same_cache p (snd (handle r p)))
  ∧ (∀ now now',
       r = GetFolders now now' →
       cache_hit p now = true ∨ (∀ folders, fst (fetchFoldersFromGitHub p) ≠ Normal folders) →
       same_cache p (snd (handle r p))).
Proof.
  assert (Hkeep : ∀ p', same_cache p p' →
            (is_Some (folderCache p) → is_Some (folderCache p'))
            ∧ (is_Some (cacheTimestamp p) → is_Some (cacheTimestamp p'))).
  { intros p' [-> ->]. done. }
  assert (Hfirst :
    (same_cache p (snd (handle r p))
     ∨ ∃ now now' folders,
         r = GetFolders now now'
         ∧ cache_hit p now = false
         ∧ fst (fetchFoldersFromGitHub p) = Normal folders
         ∧ folderCache (snd (handle r p)) = Some folders
         ∧ cacheTimestamp (snd (handle r p)) = Some now'
         ∧ fst (handle r p) = {| res_status := 200; res_json := Folders folders |})
    ∧ (is_Some (folderCache p) → is_Some (folderCache (snd (handle r p))))
    ∧ (is_Some (cacheTimestamp p) → is_Some (cacheTimestamp (snd (handle r p))))).
  { destruct r as [now now' | body |]; simpl.
    - destruct (get_folders_cache now now' p) as [Hsame | (folders & H)].
      + split; [by left | by apply Hkeep].
      + destruct H as (? & ? & E1 & E2 & ?). rewrite E1, E2.
        split; [| by eauto]. right. by exists now, now', folders.
    - destruct (create_file_frame body p) as (Hsame & _).
      split; [by left | by apply Hkeep].
    - split; [by left | done]. }
  destruct Hfirst as (H1 & H2 & H3).
  split; [exact H1 |]. split; [exact H2 |]. split; [exact H3 |].
  split; [| split; [| split]].
  - intros now now' folders -> Hmiss Hfetch. simpl.
    rewrite get_folders_miss by done.
    destruct (fetchFoldersFromGitHub p) as [[f | e] p1]; simpl in *; [| done].
    by injection Hfetch as ->.
  - intros body ->. simpl. by destruct (create_file_frame body p) as (? & _).
  - by intros ->.
  - intros now now' -> [Hhit | Hfail]; simpl.
    + apply cache_hit_true in Hhit as Hc. destruct Hc as (tree & ts & Hc & _).
      by rewrite (get_folders_hit p now now' tree).
    + destruct (cache_hit p now) eqn:Hhit.
      * apply cache_hit_true in Hhit as Hc. destruct Hc as (tree & ts & Hc & _).
        by rewrite (get_folders_hit p now now' tree).
      * rewrite get_folders_miss by done.
        destruct (fetch_frame p) as (Hsame & _).
        destruct (fetchFoldersFromGitHub p) as [[f | e] p1]; simpl in *;
          [by destruct (Hfail f) | done].
Qed.

(** C8. The health check answers 200 with status, service and cacheStatus,
    changes nothing, and cacheStatus is "loaded" exactly when [folderCache]
    holds a tree; neither the clock nor [cacheTimestamp] is consulted. *)
Theorem health_reports_cache p :
  ∃ cacheStatus,
    health p = ({| res_status := 200;
                   res_json := HealthBody "ok" "node-gateway" cacheStatus |}, p)
    ∧ (cacheStatus = "loaded" ↔ is_Some (folderCache p)).
Proof.
  unfold health. destruct (folderCache p) as [tree |]; eexists; (split; [reflexivity |]).
  - split; [eauto | done].
  - split; [discriminate | by intros [? ?]].
Qed.

(** In every state the process can reach, the two cache variables are set
    together: there is a tree exactly when there is a timestamp. *)
Lemma reachable_cache_entry p :
  reachable p → (is_Some (folderCache p) ↔ is_Some (cacheTimestamp p)).
Proof.
  induction 1 as [w | r p Hp IH]; simpl.
  - split; by intros [? ?].
  - destruct r as [now now' | body |]; simpl.
    + destruct (get_folders_cache now now' p)
        as [[-> ->] | (folders & _ & _ & -> & -> & _)]; [done | split; eauto].
    + by destruct (create_file_frame body p) as ([-> ->] & _).
    + done.
Qed.


Lemma serve_cons r rs p :
  serve (r :: rs) p =
    (fst (handle r p) :: fst (serve rs (snd (handle r p))),
     snd (serve rs (snd (handle r p)))).
Proof.
  simpl. run. destruct (handle r p) as [a p1]. simpl.
  by destruct (serve rs p1) as [answers p2].
Qed.

Lemma handle_within_ttl r p tree ts :
  folderCache p = Some tree → cacheTimestamp p = Some ts → ts ≠ 0 →
  (∀ now now', r = GetFolders now now' → now - ts < CACHE_TTL) →
  same_cache p (snd (handle r p))
  ∧ fetches (snd (handle r p)) = fetches p
  ∧ filter is_get (trace (snd (handle r p))) = filter is_get (trace p)
  ∧ (∀ now now', r = GetFolders now now' → handle r p = (ok_folders tree, p)).
Proof.
  intros Hc Ht Hz Hr. destruct r as [now now' | body |]; simpl.
  - assert (cache_hit p now = true) as Hhit.
    { apply cache_hit_true. exists tree, ts. eauto. }
    rewrite (get_folders_hit p now now' tree) by done. simpl.
    by repeat split.
  - destruct (create_file_frame body p) as ([? ?] & ? & ?). by repeat split.
  - by repeat split.
Qed.

Lemma serve_within_ttl rs p tree ts :
  folderCache p = Some tree → cacheTimestamp p = Some ts → ts ≠ 0 →
  within_ttl ts rs →
  same_cache p (snd (serve rs p))
  ∧ fetches (snd (serve rs p)) = fetches p
  ∧ filter is_get (trace (snd (serve rs p))) = filter is_get (trace p)
  ∧ (∀ i now now', rs !! i = Some (GetFolders now now') →
       fst (serve rs p) !! i = Some (ok_folders tree)).
Proof.
  revert p. induction rs as [| r rs IH]; intros p Hc Ht Hz Hrs.
  - simpl. repeat split. intros i ? ? Hi. by rewrite lookup_nil in Hi.
  - rewrite serve_cons. simpl.
    destruct (handle_within_ttl r p tree ts) as ([E1 E2] & E3 & E4 & E5); try done.
    { intros now now' ->. apply (Hrs now now'). by left. }
    destruct (IH (snd (handle r p))) as ([F1 F2] & F3 & F4 & F5); try congruence.
    { intros now now' Hin. apply (Hrs now now'). by right. }
    unfold same_cache. rewrite F1, F2, F3, F4. repeat split; try done.
    intros [| i] now now' Hi; simpl in *.
    + injection Hi as ->. by rewrite (E5 now now').
    + by apply (F5 i now now').
Qed.

(** C2. While the cache holds a tree stamped with a clock reading [ts] and
    less than the TTL has passed since, a folder listing is answered with that
    tree and nothing changes: no request is sent, no fetch is started. Any run
    of requests whose listings arrive within the TTL sends no GET to the
    listing service and starts no fetch, and each listing is answered with the
    cached tree; so a run that begins with a listing whose fetch succeeds at
    [ts] and goes on within the TTL makes exactly that one fetch. The reading
    [ts] is one that the clock of a running host gives, milliseconds since
    1970 and not zero; the handler tests the stored reading for truth. *)
Theorem fresh_cache_is_served tree ts :
  ts ≠ 0 →
  (∀ p now now',
     folderCache p = Some tree → cacheTimestamp p = Some ts →
     now - ts < CACHE_TTL →
     get_folders now now' p = ({| res_status := 200; res_json := Folders tree |}, p))
  ∧ (∀ p rs,
       folderCache p = Some tree → cacheTimestamp p = Some ts →
       within_ttl ts rs →
       fetches (snd (serve rs p)) = fetches p
       ∧ filter is_get (trace (snd (serve rs p))) = filter is_get (trace p)
       ∧ ∀ i now now', rs !! i = Some (GetFolders now now') →
           fst (serve rs p) !! i = Some {| res_status := 200; res_json := Folders tree |})
  ∧ (∀ p now rs,
       cache_hit p now = false →
       fst (fetchFoldersFromGitHub p) = Normal tree →
       within_ttl ts rs →
       fetches (snd (serve (GetFolders now ts :: rs) p)) = S (fetches p)).
Proof.
  intros Hz. split; [| split].
  - intros p now now' Hc Ht Hlt. apply get_folders_hit; [| done].
    apply cache_hit_true. exists tree, ts. done.
  - intros p rs Hc Ht Hrs.
    by destruct (serve_within_ttl rs p tree ts) as (_ & ? & ? & ?).
  - intros p now rs Hmiss Hfetch Hrs. rewrite serve_cons. simpl.
    rewrite get_folders_miss by done.
    destruct (fetch_frame p) as (_ & Hn).
    destruct (fetchFoldersFromGitHub p) as [[folders | e] p1]; simpl in *; [| done].
    injection Hfetch as ->.
    destruct (serve_within_ttl rs (snd (set_cache tree ts p1)) tree ts)
      as (_ & E & _); try done.
    simpl in E. by rewrite E.
Qed.

(** ** Further properties of the folder listing *)

(** X2. An entry whose age has reached the TTL (the comparison is strict,
    so an age of exactly five minutes counts) is not served: the listing
    starts one fetch, and answers with the fetched tree, storing it with the
    new clock reading, or with the fallback when the fetch fails. *)
Theorem expired_entry_is_refetched p tree ts now now' :
  folderCache p = Some tree → cacheTimestamp p = Some ts →
  CACHE_TTL ≤ now - ts →
  fetches (snd (get_folders now now' p)) = S (fetches p)
  ∧ ((∃ folders,
        fst (fetchFoldersFromGitHub p) = Normal folders
        ∧ fst (get_folders now now' p) = {| res_status := 200; res_json := Folders folders |}
        ∧ folderCache (snd (get_folders now now' p)) = Some folders
        ∧ cacheTimestamp (snd (get_folders now now' p)) = Some now')
     ∨ ((∀ folders, fst (fetchFoldersFromGitHub p) ≠ Normal folders)
        ∧ fst (get_folders now now' p)
          = {| res_status := 200; res_json := Folders getFallbackFolders |}
        ∧ folderCache (snd (get_folders now now' p)) = Some tree
        ∧ cacheTimestamp (snd (get_folders now now' p)) = Some ts)).
Proof.
  intros Hc Ht Hage.
  assert (cache_hit p now = false) as Hmiss.
  { apply not_true_is_false. intros (? & ? & ? & ? & ? & ?)%cache_hit_true.
    simplify_eq. lia. }
  rewrite get_folders_miss by done.
  destruct (fetch_frame p) as ([E1 E2] & E3).
  destruct (fetchFoldersFromGitHub p) as [[folders | e] p1]; simpl in *.
  - split; [done |]. left. by exists folders.
  - split; [done |]. right. by rewrite E1, E2.
Qed.

Lemma axios_get_trace url p :
  trace (snd (axios_get url p)) = trace p ++ [Get url].
Proof. unfold axios_get. by destruct (listing_service _ _). Qed.

Lemma for_each_folder_trace rootItems folderTree p :
  trace (snd (for_each_folder rootItems folderTree p))
  = trace p ++ map (λ folder, Get (subfolder_url (GitHub.name folder))) rootItems.
Proof.
  revert folderTree p. induction rootItems as [| folder rest IH]; intros folderTree p.
  - simpl. by rewrite app_nil_r.
  - simpl. run. rewrite fetch_subfolders_spec, IH, axios_get_trace.
    by rewrite <- app_assoc.
Qed.

(** X3. One fetch sends one GET for the root and then, when the root was
    listed, one GET for each entry of type dir, in the order of the listing,
    and nothing else: no request for a file entry, no second attempt for a
    folder whose listing failed, and no request at all after a failed root
    listing. *)
Theorem fetch_requests p :
  trace (snd (fetchFoldersFromGitHub p))
  = trace p ++ Get root_url ::
      match listing_answer root_url (world p) with
      | Normal (GitHub.Listing data) =>
          map (λ folder, Get (subfolder_url (GitHub.name folder)))
            (filter GitHub.is_dir data)
      | Normal GitHub.Malformed | Throw _ => []
      end.
Proof.
  rewrite fetch_unfold.
  pose proof (axios_get_trace root_url (snd (count_fetch p))) as Hroot. simpl in Hroot.
  destruct (listing_answer root_url (world p)) as [[data |] | e]; simpl; try done.
  pose proof (for_each_folder_trace (filter GitHub.is_dir data) ∅
                (snd (axios_get root_url (snd (count_fetch p))))) as Hsub.
  destruct (for_each_folder _ _ _) as [tree p']. simpl in *.
  rewrite Hsub, Hroot. by rewrite <- app_assoc.
Qed.

(** X4. When the answers of the listing service depend on the URL alone, a
    fetch whose root listing succeeds returns exactly this tree: every entry
    of the root of type dir, except one named [__proto__], is a key, mapped to
    the names of the dir entries of its own listing in the order of that
    listing, or to the empty list when its listing fails; there is no other
    key. *)
Theorem fetch_tree_exact p data :
  (∀ url w w', fst (listing_service url w) = fst (listing_service url w')) →
  listing_answer root_url (world p) = Normal (GitHub.Listing data) →
  ∃ tree,
    fst (fetchFoldersFromGitHub p) = Normal tree
    ∧ ∀ k, tree !! k =
        if bool_decide (k ∈ map GitHub.name (filter GitHub.is_dir data) ∧ k ≠ "__proto__")
        then Some (recorded (listing_answer (subfolder_url k) (world p)))
        else None.
Proof.
  intros Hpure Hroot. rewrite fetch_unfold, Hroot.
  set (p1 := snd (axios_get root_url (snd (count_fetch p)))).
  pose proof (for_each_folder_other (filter GitHub.is_dir data) ∅ p1) as Hother.
  pose proof (λ before folder after, for_each_folder_last before folder after ∅ p1) as Hlast.
  destruct (for_each_folder (filter GitHub.is_dir data) ∅ p1) as [tree p'] eqn:Hrun.
  simpl in *. exists tree. split; [done |]. intros k.
  case_bool_decide as Hk.
  - destruct Hk as [(before & folder & after & Hsplit & <- & Ha)%last_occurrence Hne].
    specialize (Hlast before folder after Ha Hne).
    rewrite <- Hsplit, Hrun in Hlast. simpl in Hlast. rewrite Hlast.
    unfold listing_answer. by rewrite (Hpure _ _ (world p)).
  - rewrite Hother, lookup_empty; [done |].
    destruct (decide (k = "__proto__")); [by right | left].
    intros Hin. by apply Hk.
Qed.

(** The number of folder listings among some requests. *)
Fixpoint listings (rs : list request) : nat :=
  match rs with
  | [] => O
  | GetFolders _ _ :: rest => S (listings rest)
  | _ :: rest => listings rest
  end.

(** X5. A failed fetch is not remembered. While nothing is cached and the
    root listing keeps failing, every folder listing starts a fetch of its
    own, whatever the clock reads, and is answered with the fallback; the
    cache stays empty. *)
Theorem failures_are_not_cached rs p :
  folderCache p = None →
  (∀ w, listing_failed (listing_answer root_url w)) →
  fetches (snd (serve rs p)) = (fetches p + listings rs)%nat
  ∧ folderCache (snd (serve rs p)) = None
  ∧ ∀ i now now', rs !! i = Some (GetFolders now now') →
      fst (serve rs p) !! i
      = Some {| res_status := 200; res_json := Folders getFallbackFolders |}.
Proof.
  intros Hnone Hdown. revert p Hnone.
  induction rs as [| r rs IH]; intros p Hnone.
  - simpl. split; [lia |]. split; [done |].
    intros i ? ? Hi. by rewrite lookup_nil in Hi.
  - rewrite serve_cons. simpl.
    assert (folderCache (snd (handle r p)) = None
            ∧ fetches (snd (handle r p))
              = (fetches p + listings [r])%nat
            ∧ ∀ now now', r = GetFolders now now' →
                fst (handle r p) = ok_folders getFallbackFolders) as (Hc & Hf & Ha).
    { destruct r as [now now' | body |]; simpl.
      - assert (cache_hit p now = false) as Hmiss by (unfold cache_hit; by rewrite Hnone).
        rewrite get_folders_miss by done.
        destruct (fetch_frame p) as ([E1 E2] & E3).
        pose proof (proj2 (fetch_fails_iff p) (Hdown (world p))) as Hfail.
        destruct (fetchFoldersFromGitHub p) as [[folders | e] p1]; simpl in *.
        + by destruct (Hfail folders).
        + rewrite E1, E3. repeat split; [done | lia].
      - destruct (create_file_frame body p) as ([E1 E2] & E3 & _).
        rewrite E1, E3. repeat split; [done | lia | done].
      - repeat split; [done | lia | done]. }
    destruct (IH (snd (handle r p)) Hc) as (F1 & F2 & F3).
    rewrite F1, Hf. split.
    { destruct r; simpl; lia. }
    split; [done |].
    intros [| i] now now' Hi; simpl in *.
    + injection Hi as ->. by rewrite (Ha now now').
    + by apply (F3 i now now').
Qed.

(** X6. Whatever tree the cache of a running process holds was returned by
    a fetch of the listing service in a state the process went through: the
    fallback is never stored, and the health check reports "loaded" only
    after a fetch has succeeded. *)
Theorem cached_tree_was_fetched p tree :
  reachable p → folderCache p = Some tree →
  (∃ p0, reachable p0 ∧ fst (fetchFoldersFromGitHub p0) = Normal tree)
  ∧ (0 < fetches p)%nat.
Proof.
  intros Hp. revert tree. induction Hp as [w | r p Hp IH]; intros tree Hc.
  - discriminate.
  - assert (Hmono : (fetches p ≤ fetches (snd (handle r p)))%nat).
    { destruct r as [now now' | body |]; simpl.
      - destruct (cache_hit p now) eqn:Hhit.
        + apply cache_hit_true in Hhit as Hx. destruct Hx as (t & ts & Hx & _).
          by rewrite (get_folders_hit p now now' t).
        + rewrite get_folders_miss by done.
          destruct (fetch_frame p) as (_ & E).
          destruct (fetchFoldersFromGitHub p) as [[folders | e] p1]; simpl in *; lia.
      - destruct (create_file_frame body p) as (_ & -> & _). done.
      - done. }
    destruct r as [now now' | body |]; simpl in *.
    + destruct (get_folders_cache now now' p) as [[E1 E2] | (folders & Hmiss & Hf & E1 & _)].
      * rewrite E1 in Hc. destruct (IH tree Hc) as [? ?]. split; [done | lia].
      * rewrite E1 in Hc. injection Hc as <-. split; [by exists p |].
        rewrite get_folders_miss by done.
        destruct (fetch_frame p) as (_ & E).
        destruct (fetchFoldersFromGitHub p) as [[f | e] p1]; simpl in *; lia.
    + destruct (create_file_frame body p) as ([E1 _] & _).
      rewrite E1 in Hc. destruct (IH tree Hc) as [? ?]. split; [done | lia].
    + destruct (IH tree Hc) as [? ?]. split; [done | lia].
Qed.

(** ** Further properties of the creation of a file *)

Lemma trace_grows (l : list sent) x : l ++ [x] ≠ l.
Proof.
  intros E. apply (f_equal length) in E. rewrite length_app in E. simpl in E. lia.
Qed.

(** A value whose conversion to a string, in the log line, throws. *)
Definition log_line_throws (body : gmap string json) : bool :=
  template_throws (body !! "topFolder") || template_throws (body !! "subFolder")
  || template_throws (body !! "filename").

Lemma create_file_log_throws body p :
  (∀ k, k ∈ REQUIRED → truthy (body !! k) = true) →
  valid_action (body !! "action") →
  log_line_throws body = true →
  create_file body p =
    ({| res_status := 500; res_json := ErrorBody "Internal server error" |}, p).
Proof.
  intros Hr Ha Hlog. unfold create_file, log_line_throws in *.
  rewrite !Hr by in_list.
  apply includes_valid_action in Ha as ->. simpl. run. by rewrite Hlog.
Qed.

Lemma create_file_gate_open body p :
  (∀ k, k ∈ REQUIRED → truthy (body !! k) = true) →
  valid_action (body !! "action") →
  log_line_throws body = false →
  create_file body p = forward body p.
Proof.
  intros Hr Ha Hlog. unfold create_file, log_line_throws in *.
  rewrite !Hr by in_list.
  apply includes_valid_action in Ha as ->. simpl. run. rewrite Hlog.
  unfold axios_post, forward, persistence_answer.
  destruct (persistence_service _ _ _) as [o w]. simpl.
  by destruct (settle o).
Qed.

(** X7. A request reaches the persistence service exactly when the four
    required values are truthy (so a number other than zero, an array or an
    object passes as well as a non-empty string, while null, false and 0 do
    not), the action is one of the four, and the log line can be built. It is
    then a single POST to the create-file URL of that service. *)
Theorem create_file_posts_iff body p :
  (∃ data, trace (snd (create_file body p))
           = trace p ++ [Post (PYTHON_SERVICE +:+ "/create-file") data])
  ↔ (∀ k, k ∈ REQUIRED → truthy (body !! k) = true)
    ∧ valid_action (body !! "action")
    ∧ log_line_throws body = false.
Proof.
  split.
  - intros [data Htrace].
    destruct (decide (Forall (λ k, truthy (body !! k) = true) REQUIRED)) as [Hr | Hr].
    2:{ apply not_Forall_Exists in Hr; [| apply _].
        apply Exists_exists in Hr as (k & Hk & Hf). apply not_true_is_false in Hf.
        rewrite (create_file_missing body p) in Htrace by eauto.
        simpl in Htrace. symmetry in Htrace. by apply trace_grows in Htrace. }
    rewrite Forall_forall in Hr.
    destruct (includes ACTIONS (body !! "action")) eqn:Ha.
    2:{ rewrite (create_file_invalid_action body p) in Htrace.
        - simpl in Htrace. symmetry in Htrace. by apply trace_grows in Htrace.
        - done.
        - intros Hv%includes_valid_action. congruence. }
    apply includes_valid_action in Ha.
    destruct (log_line_throws body) eqn:Hlog; [| done].
    rewrite (create_file_log_throws body p) in Htrace by done.
    simpl in Htrace. symmetry in Htrace. by apply trace_grows in Htrace.
  - intros (Hr & Ha & Hlog). rewrite create_file_gate_open by done.
    unfold forward. simpl. eauto.
Qed.

(** X8. A request that passes validation but whose topFolder, subFolder or
    filename cannot be converted to a string for the log line (an object with
    a property named toString, or an array holding one) is answered 500 with
    the generic internal error, and nothing is sent. *)
Theorem create_file_log_line_error body p :
  (∀ k, k ∈ REQUIRED → truthy (body !! k) = true) →
  valid_action (body !! "action") →
  (∃ k, k ∈ ["topFolder"; "subFolder"; "filename"] ∧ template_throws (body !! k) = true) →
  create_file body p =
    ({| res_status := 500; res_json := ErrorBody "Internal server error" |}, p).
Proof.
  intros Hr Ha (k & Hk & Hthrow). apply create_file_log_throws; try done.
  unfold log_line_throws.
  repeat (apply elem_of_cons in Hk as [-> | Hk]);
    try (rewrite Hthrow; by rewrite ?orb_true_r).
  by apply elem_of_nil in Hk.
Qed.

(** X9. The status of the answer to a creation request is 200, 400, 500 or
    503, or else the status outside 200..299 with which the persistence
    service answered the forwarded request. In particular a 201 or 204 of the
    persistence service never shows: a successful answer is always 200. *)
Theorem create_file_statuses body p :
  (res_status (fst (create_file body p)) ∈ [200; 400; 500; 503]
   ∨ ∃ data,
       persistence_answer body p = Responded (res_status (fst (create_file body p))) data
       ∧ validateStatus (res_status (fst (create_file body p))) = false)
  ∧ (validateStatus (res_status (fst (create_file body p))) = true →
     res_status (fst (create_file body p)) = 200).
Proof.
  assert (Hmain : res_status (fst (create_file body p)) ∈ [200; 400; 500; 503]
            ∨ ∃ data,
                persistence_answer body p
                = Responded (res_status (fst (create_file body p))) data
                ∧ validateStatus (res_status (fst (create_file body p))) = false).
  { destruct (decide (Forall (λ k, truthy (body !! k) = true) REQUIRED)) as [Hr | Hr].
    2:{ apply not_Forall_Exists in Hr; [| apply _].
        apply Exists_exists in Hr as (k & Hk & Hf). apply not_true_is_false in Hf.
        rewrite (create_file_missing body p) by eauto. left. simpl. repeat constructor. }
    rewrite Forall_forall in Hr.
    destruct (includes ACTIONS (body !! "action")) eqn:Ha.
    2:{ rewrite (create_file_invalid_action body p); [left; simpl; repeat constructor | done |].
        intros Hv%includes_valid_action. congruence. }
    apply includes_valid_action in Ha.
    destruct (log_line_throws body) eqn:Hlog.
    { rewrite (create_file_log_throws body p) by done. left. simpl. repeat constructor. }
    rewrite create_file_gate_open by done. unfold forward. simpl.
    destruct (persistence_answer body p) as [status data | c] eqn:Hans; simpl.
    - destruct (validateStatus status) eqn:Hv; simpl.
      + left. repeat constructor.
      + unfold create_file_catch. simpl.
        rewrite bool_decide_eq_false_2 by apply status_code_not_refused.
        simpl. right. by exists data.
    - unfold create_file_catch. simpl.
      case_bool_decide; simpl; left; repeat constructor. }
  split; [exact Hmain |].
  intros Hv. destruct Hmain as [Hin | (data & _ & Hf)]; [| congruence].
  repeat (apply elem_of_cons in Hin as [E | Hin]); try done.
  - rewrite E in Hv. discriminate.
  - rewrite E in Hv. discriminate.
  - rewrite E in Hv. discriminate.
  - by apply elem_of_nil in Hin.
Qed.

(** ** The client and the gateway together *)

Import Client.

Lemma strip_prefix_shorter pat l l' :
  pat ≠ [] → strip_prefix pat l = Some l' → (length l' < length l)%nat.
Proof.
  unfold strip_prefix. intros Hpat. case_decide as Htake; [| done].
  intros [= <-]. rewrite length_drop.
  destruct pat as [| c pat]; [done |]. destruct l as [| d l]; [done |].
  simpl. lia.
Qed.

Lemma strip_one_shorter pats l l' :
  Forall (λ pat, pat ≠ []) pats → strip_one pats l = Some l' →
  (length l' < length l)%nat.
Proof.
  induction 1 as [| pat pats Hpat _ IH]; simpl; [done |].
  destruct (strip_prefix pat l) as [l'' |] eqn:E; [| done].
  intros [= <-]. by apply (strip_prefix_shorter pat).
Qed.

(** With as much fuel as the text has bytes, stripping stops because
    nothing is left to strip. *)
Lemma strip_complete pats fuel l :
  Forall (λ pat, pat ≠ []) pats → (length l ≤ fuel)%nat →
  strip_one pats (strip pats fuel l) = None.
Proof.
  intros Hpats. revert l. induction fuel as [| fuel IH]; intros l Hl; simpl.
  - destruct (strip_one pats l) as [l' |] eqn:E; [| done].
    apply strip_one_shorter in E; [lia | done].
  - destruct (strip_one pats l) as [l' |] eqn:E; [| done].
    apply IH. apply strip_one_shorter in E; [lia | done].
Qed.

Lemma white_space_nonempty : Forall (λ pat : list N, pat ≠ []) WHITE_SPACE.
Proof. unfold WHITE_SPACE. repeat (constructor; [discriminate |]). constructor. Qed.

Lemma trimStart_complete l : strip_one WHITE_SPACE (trimStart_bytes l) = None.
Proof. apply strip_complete; [apply white_space_nonempty | done]. Qed.

Lemma trimEnd_complete l :
  strip_one (map (@rev N) WHITE_SPACE) (rev (trimEnd_bytes l)) = None.
Proof.
  unfold trimEnd_bytes. rewrite rev_involutive. apply strip_complete.
  - unfold WHITE_SPACE. simpl. repeat (constructor; [discriminate |]). constructor.
  - by rewrite length_rev.
Qed.

Lemma trim_not_empty s : empty (trim s) = false → empty s = false.
Proof. destruct s; [vm_compute; discriminate | done]. Qed.

Lemma truthy_not_empty s : empty s = false → truthy (Some (JStr s)) = true.
Proof. by destruct s. Qed.

(** What [handleSubmit] posts, spelled out. *)
Lemma handleSubmit_Some f payload :
  handleSubmit f = Some payload →
  empty (title f) = false ∧ empty (code f) = false
  ∧ empty (topFolder f) = false ∧ empty (subFolder f) = false
  ∧ payload = {[ "topFolder" := JStr (topFolder f);
                 "subFolder" := JStr (subFolder f);
                 "filename" := JStr (title f);
                 "content" := JStr (code f);
                 "action" := JStr "check" ]}.
Proof.
  unfold handleSubmit.
  destruct (empty (trim (title f))) eqn:E1; [done |].
  destruct (empty (trim (code f))) eqn:E2; [done |].
  destruct (empty (topFolder f)) eqn:E3; [done |].
  destruct (empty (subFolder f)) eqn:E4; [done |].
  simpl. intros [= <-].
  split; [by apply trim_not_empty |]. split; [by apply trim_not_empty |]. done.
Qed.

(** A body with the five fields and nothing else, the required ones
    non-empty strings and the action one of the four, is forwarded as it is. *)
Lemma create_file_five_strings tf sf fn c a p :
  empty tf = false → empty sf = false → empty fn = false → empty c = false →
  a ∈ ACTIONS →
  let body : gmap string json :=
    {[ "topFolder" := JStr tf; "subFolder" := JStr sf; "filename" := JStr fn;
       "content" := JStr c; "action" := JStr a ]} in
  create_file body p = forward body p
  ∧ trace (snd (create_file body p))
    = trace p ++ [Post (PYTHON_SERVICE +:+ "/create-file") body].
Proof.
  intros H1 H2 H3 H4 Ha body.
  assert (Hb : body !! "topFolder" = Some (JStr tf) ∧ body !! "subFolder" = Some (JStr sf)
               ∧ body !! "filename" = Some (JStr fn) ∧ body !! "content" = Some (JStr c)
               ∧ body !! "action" = Some (JStr a)).
  { unfold body. repeat split; by simplify_map_eq. }
  destruct Hb as (B1 & B2 & B3 & B4 & B5).
  assert (create_file body p = forward body p) as Hfwd.
  { apply create_file_gate_open.
    - intros k Hk. unfold REQUIRED in Hk.
      repeat (apply elem_of_cons in Hk as [-> | Hk]);
        rewrite ?B1, ?B2, ?B3, ?B4; try by apply truthy_not_empty.
      by apply elem_of_nil in Hk.
    - exists a. by rewrite B5.
    - unfold log_line_throws. by rewrite B1, B2, B3. }
  split; [done |]. rewrite Hfwd. unfold forward. simpl.
  assert (forwarded (body !! "topFolder") (body !! "subFolder") (body !! "filename")
            (body !! "content") (body !! "action") = body) as ->; [| done].
  apply map_eq. intros k. rewrite forwarded_lookup.
  case_bool_decide as Hk; [done |]. symmetry. unfold body.
  unfold FIELDS, REQUIRED in Hk. simpl in Hk.
  rewrite !elem_of_cons, elem_of_nil in Hk.
  repeat (rewrite lookup_insert_ne by (intros <-; apply Hk; auto 10)).
  apply lookup_singleton_ne. intros <-. apply Hk. auto 10.
Qed.


Lemma handleSubmit_no_subfolder f value :
  folders f !! value = Some [] → handleSubmit (handleTopFolderChange f value) = None.
Proof.
  intros Hv. unfold handleSubmit, handleTopFolderChange. simpl. rewrite Hv. simpl.
  by rewrite !orb_true_r.
Qed.

Lemma fetch_failed_folder_empty p data tree before folder after :
  listing_answer root_url (world p) = Normal (GitHub.Listing data) →
  fst (fetchFoldersFromGitHub p) = Normal tree →
  filter GitHub.is_dir data = before ++ folder :: after →
  GitHub.name folder ∉ map GitHub.name after →
  GitHub.name folder ≠ "__proto__" →
  listing_failed (fetch_answer p before folder) →
  tree !! GitHub.name folder = Some [].
Proof.
  intros Hroot Hfetch Hsplit Ha Hne Hfail. rewrite fetch_unfold, Hroot in Hfetch.
  unfold fetch_answer in Hfail.
  pose proof (for_each_folder_last before folder after ∅
                (snd (axios_get root_url (snd (count_fetch p)))) Ha Hne) as Hlast.
  rewrite <- Hsplit in Hlast.
  destruct (for_each_folder (filter GitHub.is_dir data) ∅ _) as [tree' p']. simpl in *.
  injection Hfetch as ->. rewrite Hlast. by rewrite recorded_failed.
Qed.

(** X10. Whatever the form lets through is let through by the gateway: the
    body that [handleSubmit] posts passes both validations of the creation
    handler and is forwarded to the persistence service as it is, in one POST,
    with the title and the code as typed (the trimmed text is only tested,
    not sent) and the action check. *)
Theorem submitted_form_is_forwarded f payload p :
  handleSubmit f = Some payload →
  create_file payload p = forward payload p
  ∧ trace (snd (create_file payload p))
    = trace p ++ [Post (PYTHON_SERVICE +:+ "/create-file") payload]
  ∧ payload !! "filename" = Some (JStr (title f))
  ∧ payload !! "content" = Some (JStr (code f))
  ∧ payload !! "action" = Some (JStr "check").
Proof.
  intros (H1 & H2 & H3 & H4 & ->)%handleSubmit_Some.
  assert ("check" ∈ ACTIONS) as Ha by in_list.
  destruct (create_file_five_strings (topFolder f) (subFolder f) (title f) (code f)
              "check" p H3 H4 H1 H2 Ha) as [E1 E2].
  split; [exact E1 |]. split; [exact E2 |]. repeat split; by simplify_map_eq.
Qed.

(** X11. Each button of the conflict dialog, Cancel included, sends a
    request that the gateway forwards: the body that [handleModalAction] posts
    for overwrite, version or reject is the body of the submission that found
    the file, with the action replaced, and the creation handler passes it on
    to the persistence service in one POST. *)
Theorem modal_action_is_forwarded f0 payload f action p :
  handleSubmit f0 = Some payload →
  modalData f = Some payload →
  action ∈ MODAL_ACTIONS →
  create_file (handleModalAction f action) p = forward (handleModalAction f action) p
  ∧ trace (snd (create_file (handleModalAction f action) p))
    = trace p ++ [Post (PYTHON_SERVICE +:+ "/create-file") (handleModalAction f action)]
  ∧ handleModalAction f action !! "action" = Some (JStr action)
  ∧ ∀ k, k ∈ REQUIRED → handleModalAction f action !! k = payload !! k.
Proof.
  intros (H1 & H2 & H3 & H4 & ->)%handleSubmit_Some Hm Ha.
  assert (action ∈ ACTIONS) as Ha'.
  { unfold MODAL_ACTIONS in Ha. unfold ACTIONS.
    repeat (apply elem_of_cons in Ha as [-> | Ha]); [repeat constructor .. |].
    by apply elem_of_nil in Ha. }
  assert (handleModalAction f action
          = {[ "topFolder" := JStr (topFolder f0); "subFolder" := JStr (subFolder f0);
               "filename" := JStr (title f0); "content" := JStr (code f0);
               "action" := JStr action ]}) as Hbody.
  { unfold handleModalAction. rewrite Hm. simpl. apply map_eq. intros k.
    destruct (decide (k = "action")) as [-> | Hk]; [by simplify_map_eq |].
    rewrite lookup_insert_ne by done.
    destruct (decide (k = "topFolder")) as [-> | ?]; [by simplify_map_eq |].
    destruct (decide (k = "subFolder")) as [-> | ?]; [by simplify_map_eq |].
    destruct (decide (k = "filename")) as [-> | ?]; [by simplify_map_eq |].
    destruct (decide (k = "content")) as [-> | ?]; [by simplify_map_eq |].
    by simplify_map_eq. }
  destruct (create_file_five_strings (topFolder f0) (subFolder f0) (title f0) (code f0)
              action p H3 H4 H1 H2 Ha') as [E1 E2].
  rewrite Hbody. split; [exact E1 |]. split; [exact E2 |].
  split; [by simplify_map_eq |].
  intros k Hk. unfold REQUIRED in Hk.
  repeat (apply elem_of_cons in Hk as [-> | Hk]); try by simplify_map_eq.
  by apply elem_of_nil in Hk.
Qed.

(** X12. Choosing a top folder selects its first subfolder, or none when it
    has no subfolder; in that case the form cannot be submitted: [handleSubmit]
    sends nothing, whatever title and code were typed. *)
Theorem top_folder_change_selects_first f value subs :
  folders f !! value = Some subs →
  topFolder (handleTopFolderChange f value) = value
  ∧ subFolder (handleTopFolderChange f value) = default "" (head subs)
  ∧ (subs = [] → handleSubmit (handleTopFolderChange f value) = None).
Proof.
  intros Hv. split; [done |]. split.
  - unfold handleTopFolderChange. simpl. rewrite Hv. by destruct subs.
  - intros ->. by apply handleSubmit_no_subfolder.
Qed.

(** X13. A top-level folder whose listing failed during the fetch of the
    tree, and that is not named [__proto__], is shown by the client but
    cannot be used: with the fetched tree as its folders, the form has that
    folder as a key and refuses to submit once it is chosen. *)
Theorem failed_folder_cannot_be_submitted p data tree before folder after f :
  listing_answer root_url (world p) = Normal (GitHub.Listing data) →
  fst (fetchFoldersFromGitHub p) = Normal tree →
  filter GitHub.is_dir data = before ++ folder :: after →
  GitHub.name folder ∉ map GitHub.name after →
  GitHub.name folder ≠ "__proto__" →
  listing_failed (fetch_answer p before folder) →
  folders f = tree →
  is_Some (folders f !! GitHub.name folder)
  ∧ handleSubmit (handleTopFolderChange f (GitHub.name folder)) = None.
Proof.
  intros Hroot Hfetch Hsplit Ha Hne Hfail Hf.
  pose proof (fetch_failed_folder_empty p data tree before folder after
                Hroot Hfetch Hsplit Ha Hne Hfail) as He.
  rewrite <- Hf in He. split; [eauto |]. by apply handleSubmit_no_subfolder.
Qed.

(** X14. A root without any entry of type dir gives the empty tree, with a
    single request; the listing answers with that empty tree, not with the
    fallback, and caches it like any other. *)
Theorem empty_root_is_cached p now now' data :
  cache_hit p now = false →
  listing_answer root_url (world p) = Normal (GitHub.Listing data) →
  (∀ i, i ∈ data → GitHub.type i ≠ "dir") →
  fst (get_folders now now' p) = {| res_status := 200; res_json := Folders ∅ |}
  ∧ folderCache (snd (get_folders now now' p)) = Some ∅
  ∧ cacheTimestamp (snd (get_folders now now' p)) = Some now'
  ∧ trace (snd (get_folders now now' p)) = trace p ++ [Get root_url].
Proof.
  intros Hmiss Hroot Hfiles.
  assert (filter GitHub.is_dir data = []) as Hnone.
  { destruct (filter GitHub.is_dir data) as [| i l] eqn:E; [done |].
    assert (i ∈ filter GitHub.is_dir data) as Hin by (rewrite E; left).
    apply list_elem_of_filter in Hin as [Hd Hi].
    destruct (Hfiles i Hi). unfold GitHub.is_dir in Hd.
    by apply Is_true_true, String.eqb_eq in Hd. }
  rewrite get_folders_miss by done. rewrite fetch_unfold, Hroot, Hnone. simpl.
  repeat split. apply (axios_get_trace root_url (snd (count_fetch p))).
Qed.


Lemma filter_post_gets (l : list sent) (urls : list string) :
  filter is_post (l ++ map Get urls) = filter is_post l.
Proof.
  rewrite filter_app.
  assert (filter is_post (map Get urls) = []) as ->; [| apply app_nil_r].
  induction urls as [| url urls IH]; [done |]. simpl.
  rewrite filter_cons_False; [exact IH | by intros ?].
Qed.

Lemma fetch_sends_gets p :
  ∃ urls, trace (snd (fetchFoldersFromGitHub p)) = trace p ++ map Get urls.
Proof.
  rewrite fetch_unfold.
  pose proof (axios_get_trace root_url (snd (count_fetch p))) as Hroot. simpl in Hroot.
  destruct (listing_answer root_url (world p)) as [[data |] | e]; simpl;
    try (exists [root_url]; exact Hroot).
  pose proof (for_each_folder_trace (filter GitHub.is_dir data) ∅
                (snd (axios_get root_url (snd (count_fetch p))))) as Hsub.
  destruct (for_each_folder _ _ _) as [tree p']. simpl in *.
  exists (root_url :: map (λ folder, subfolder_url (GitHub.name folder))
                        (filter GitHub.is_dir data)).
  rewrite Hsub, Hroot, <- app_assoc. simpl. by rewrite map_map.
Qed.

(** X15. Each route keeps to its own service. A folder listing sends
    nothing to the persistence service; the creation of a file sends nothing
    to the listing service and starts no fetch; the health check sends
    nothing at all. *)
Theorem routes_keep_to_their_service r p :
  match r with
  | GetFolders _ _ =>
      filter is_post (trace (snd (handle r p))) = filter is_post (trace p)
  | PostCreateFile _ =>
      filter is_get (trace (snd (handle r p))) = filter is_get (trace p)
      ∧ fetches (snd (handle r p)) = fetches p
  | GetHealth =>
      trace (snd (handle r p)) = trace p ∧ fetches (snd (handle r p)) = fetches p
  end.
Proof.
  destruct r as [now now' | body |]; simpl.
  - destruct (cache_hit p now) eqn:Hhit.
    + apply cache_hit_true in Hhit as Hx. destruct Hx as (t & ts & Hx & _).
      by rewrite (get_folders_hit p now now' t).
    + rewrite get_folders_miss by done.
      destruct (fetch_sends_gets p) as [urls Hurls].
      destruct (fetchFoldersFromGitHub p) as [[folders | e] p1]; simpl in *;
        rewrite Hurls; apply filter_post_gets.
  - by destruct (create_file_frame body p) as (_ & ? & ?).
  - done.
Qed.

End Gateway.


(** ** The statements on the sample services *)

Import Scenario.

Ltac not_an_action :=
  let a := fresh "a" in
  let Ha := fresh "Ha" in
  let E := fresh "E" in
  intros (a & Ha & E); vm_compute in E; injection E as <-; revert Ha;
  unfold ACTIONS; rewrite !elem_of_cons, elem_of_nil;
  by intros [? | [? | [? | [? | []]]]].

Ltac all_required :=
  let k := fresh "k" in
  let Hk := fresh "Hk" in
  intros k Hk; unfold REQUIRED in Hk;
  repeat (apply elem_of_cons in Hk as [-> | Hk]);
  [ eexists; split; [vm_compute; reflexivity | discriminate] ..
  | by apply elem_of_nil in Hk ].

Lemma body_well_formed : well_formed body.
Proof.
  split; [all_required |].
  exists "check". split; [in_list | vm_compute; reflexivity].
Qed.

Lemma create_file_rejects_malformed_witness :
  ∃ error,
    create_file PYTHON persistence_creates body_no_filename (start 0%nat)
    = ({| res_status := 400; res_json := ErrorBody error |}, start 0%nat)
    ∧ trace (snd (create_file PYTHON persistence_creates body_no_filename (start 0%nat))) = []
    ∧ world (snd (create_file PYTHON persistence_creates body_no_filename (start 0%nat))) = 0%nat.
Proof.
  apply (create_file_rejects_malformed PYTHON persistence_creates body_no_filename (start 0%nat)).
  left. exists "filename". split; [in_list | left; vm_compute; reflexivity].
Defined.

Lemma validation_order_witness :
  create_file PYTHON persistence_creates body_both_wrong (start 0%nat)
  = ({| res_status := 400; res_json := ErrorBody "Missing required fields" |}, start 0%nat)
  ∧ create_file PYTHON persistence_creates body_bad_action (start 0%nat)
    = ({| res_status := 400; res_json := ErrorBody "Invalid action" |}, start 0%nat).
Proof.
  split.
  - apply (validation_order PYTHON persistence_creates body_both_wrong (start 0%nat));
      [not_an_action |].
    exists "content". split; [in_list | right; vm_compute; reflexivity].
  - apply (validation_order PYTHON persistence_creates body_bad_action (start 0%nat));
      [not_an_action | all_required].
Defined.

Lemma create_file_pass_through_witness :
  fst (create_file PYTHON persistence_rejects body (start 0%nat))
  = {| res_status := 422; res_json := Data rejection |}
  ∧ fst (create_file PYTHON persistence_creates body (start 0%nat))
    = {| res_status := 200; res_json := Data created |}.
Proof.
  split.
  - apply (create_file_pass_through PYTHON persistence_rejects body (start 0%nat) 422 rejection);
      [apply body_well_formed | reflexivity | reflexivity].
  - apply (create_file_pass_through PYTHON persistence_creates body (start 0%nat) 201 created);
      [apply body_well_formed | reflexivity | reflexivity].
Defined.

(** C4, counterexample. A well-formed request whose forwarding runs into the
    30-second timeout is answered 500 with the generic internal error, not
    503. *)
Lemma create_file_timeout_is_not_503 :
  well_formed body
  ∧ persistence_answer PYTHON persistence_timeout body (start 0%nat) = NoResponse "ECONNABORTED"
  ∧ fst (create_file PYTHON persistence_timeout body (start 0%nat))
    = {| res_status := 500; res_json := ErrorBody "Internal server error" |}
  ∧ res_status (fst (create_file PYTHON persistence_timeout body (start 0%nat))) ≠ 503.
Proof.
  split; [apply body_well_formed |].
  split; [reflexivity |].
  split; [vm_compute; reflexivity | vm_compute; discriminate].
Qed.

Lemma create_file_no_answer_witness :
  fst (create_file PYTHON persistence_refused body (start 0%nat))
  = {| res_status := 503;
       res_json := ErrorBody "Python service not available. Is it running on port 5000?" |}
  ∧ fst (create_file PYTHON persistence_timeout body (start 0%nat))
    = {| res_status := 500; res_json := ErrorBody "Internal server error" |}.
Proof.
  split.
  - apply (create_file_no_answer PYTHON persistence_refused body (start 0%nat) "ECONNREFUSED");
      [apply body_well_formed | reflexivity].
  - apply (create_file_no_answer PYTHON persistence_timeout body (start 0%nat) "ECONNABORTED");
      [apply body_well_formed | reflexivity].
Defined.

Lemma create_file_only_five_fields_witness :
  create_file PYTHON persistence_creates body (start 0%nat)
  = create_file PYTHON persistence_creates body_extra (start 0%nat).
Proof.
  apply (create_file_only_five_fields PYTHON persistence_creates body body_extra (start 0%nat)).
  intros k Hk. unfold body_extra. rewrite lookup_insert_ne; [done |].
  intros <-. revert Hk. unfold FIELDS, REQUIRED. simpl.
  rewrite !elem_of_cons, elem_of_nil.
  by intros [? | [? | [? | [? | [? | []]]]]].
Defined.

(** C6, at the failing input. The root lists the directories DS and
    __proto__; the listing of DS succeeds and that of __proto__ fails. The
    fetch succeeds with three requests, but the tree it returns has the key
    DS only: the assignment for the name __proto__ replaces the prototype of
    the object and creates no key, so the failing folder is not mapped to the
    empty list. *)
Theorem proto_folder_gets_no_key :
  listing_answer listing_proto (root_url API) 0%nat
  = Normal (GitHub.Listing [dir "DS"; dir "__proto__"])
  ∧ listing_failed (fetch_answer API listing_proto (start 0%nat) [dir "DS"] (dir "__proto__"))
  ∧ fst (fetchFoldersFromGitHub API listing_proto (start 0%nat))
    = Normal {[ "DS" := ["Arrays"; "Stack"] ]}
  ∧ ({[ "DS" := ["Arrays"; "Stack"] ]} : gmap string (list string)) !! "__proto__" = None
  ∧ trace (snd (fetchFoldersFromGitHub API listing_proto (start 0%nat)))
    = [Get (API +:+ "/contents"); Get (API +:+ "/contents/DS");
       Get (API +:+ "/contents/__proto__")].
Proof.
  split; [reflexivity |].
  split; [intros data; vm_compute; discriminate |].
  repeat split; vm_compute; reflexivity.
Qed.

Lemma folders_fallback_on_failure_witness :
  fst (get_folders API listing_down 5 6 (start 0%nat))
  = {| res_status := 200; res_json := Folders getFallbackFolders |}
  ∧ getFallbackFolders ≠ ∅
  ∧ folderCache (snd (get_folders API listing_down 5 6 (start 0%nat))) = None
  ∧ cacheTimestamp (snd (get_folders API listing_down 5 6 (start 0%nat))) = None.
Proof.
  apply (folders_fallback_on_failure API listing_down (start 0%nat) 5 6); [reflexivity |].
  intros tree. vm_compute. discriminate.
Defined.

Lemma fresh_cache_is_served_witness :
  get_folders API listing 2 3 (cached getFallbackFolders 1 0%nat)
  = ({| res_status := 200; res_json := Folders getFallbackFolders |},
     cached getFallbackFolders 1 0%nat).
Proof.
  destruct (fresh_cache_is_served API PYTHON listing persistence_creates getFallbackFolders 1)
    as (Hone & _ & _); [done |].
  apply Hone; reflexivity.
Defined.

Lemma cache_written_only_by_fetch_witness :
  folderCache (snd (handle API PYTHON listing persistence_creates
                      (GetFolders 1000 1200) (start 0%nat))) = Some fetched
  ∧ cacheTimestamp (snd (handle API PYTHON listing persistence_creates
                           (GetFolders 1000 1200) (start 0%nat))) = Some 1200
  ∧ fst (handle API PYTHON listing persistence_creates (GetFolders 1000 1200) (start 0%nat))
    = {| res_status := 200; res_json := Folders fetched |}.
Proof.
  destruct (cache_written_only_by_fetch API PYTHON listing persistence_creates
              (GetFolders 1000 1200) (start 0%nat)) as (_ & _ & _ & Hstore & _).
  apply (Hstore 1000 1200 fetched); [reflexivity | reflexivity | vm_compute; reflexivity].
Defined.

(** The stored reading is tested for truth, and zero is not true: a tree
    stored while the clock reads 0, the first millisecond of 1970, would be
    fetched again by the next listing. *)
Example cache_stamped_zero_is_refetched :
  folderCache (snd (get_folders API listing 0 0 (start 0%nat))) = Some fetched
  ∧ cacheTimestamp (snd (get_folders API listing 0 0 (start 0%nat))) = Some 0
  ∧ 1 - 0 < CACHE_TTL
  ∧ cache_hit (snd (get_folders API listing 0 0 (start 0%nat))) 1 = false
  ∧ fetches (snd (serve API PYTHON listing persistence_creates
                    [GetFolders 0 0; GetFolders 1 2] (start 0%nat))) = 2%nat
  ∧ trace (snd (serve API PYTHON listing persistence_creates
                  [GetFolders 0 0; GetFolders 1 2] (start 0%nat)))
    = [Get (API +:+ "/contents"); Get (API +:+ "/contents/DS");
       Get (API +:+ "/contents/Patterns");
       Get (API +:+ "/contents"); Get (API +:+ "/contents/DS");
       Get (API +:+ "/contents/Patterns")].
Proof. repeat split; vm_compute; reflexivity. Qed.

(** The same two listings with the clock one millisecond further: the
    second one is served from the cache. *)
Example cache_stamped_one_is_served :
  fetches (snd (serve API PYTHON listing persistence_creates
                  [GetFolders 1 1; GetFolders 2 3] (start 0%nat))) = 1%nat.
Proof. vm_compute. reflexivity. Qed.

(** The end-to-end scenario of a first creation: the file does not exist
    yet, the persistence service creates it, and its answer comes back. *)
Example create_file_scenario_A :
  create_file PYTHON persistence_creates body (start 0%nat)
  = ({| res_status := 200; res_json := Data created |},
     {| folderCache := None; cacheTimestamp := None; world := 1%nat;
        trace := [Post (PYTHON +:+ "/create-file") body]; fetches := O |}).
Proof. vm_compute. reflexivity. Qed.

(** A first listing fetches and caches the tree; a listing and a health
    check that follow within the TTL are served without a further fetch. *)
Example serve_listing_twice :
  fst (serve API PYTHON listing persistence_creates
         [GetHealth; GetFolders 1000 1200; GetFolders 2000 2200; GetHealth] (start 0%nat))
  = [ {| res_status := 200; res_json := HealthBody "ok" "node-gateway" "empty" |};
      {| res_status := 200; res_json := Folders fetched |};
      {| res_status := 200; res_json := Folders fetched |};
      {| res_status := 200; res_json := HealthBody "ok" "node-gateway" "loaded" |} ]
  ∧ fetches (snd (serve API PYTHON listing persistence_creates
         [GetHealth; GetFolders 1000 1200; GetFolders 2000 2200; GetHealth] (start 0%nat)))
    = 1%nat.
Proof. split; vm_compute; reflexivity. Qed.


(** ** The further statements on the sample services *)

Import Client.

Lemma expired_entry_is_refetched_witness :
  fetches (snd (get_folders API listing 301000 301500 (cached getFallbackFolders 1000 0%nat)))
  = 1%nat.
Proof.
  apply (expired_entry_is_refetched API listing (cached getFallbackFolders 1000 0%nat)
           getFallbackFolders 1000 301000 301500);
    [reflexivity | reflexivity | vm_compute; discriminate].
Defined.

Lemma listing_by_url url w w' : fst (listing url w) = fst (listing url w').
Proof. unfold listing. by repeat case_match. Qed.

Lemma fetch_tree_exact_witness :
  ∃ tree,
    fst (fetchFoldersFromGitHub API listing (start 0%nat)) = Normal tree
    ∧ tree !! "DS" = Some ["Arrays"; "Stack"]
    ∧ tree !! "Patterns" = Some []
    ∧ tree !! "README.md" = None
    ∧ tree !! "__proto__" = None.
Proof.
  destruct (fetch_tree_exact API listing (start 0%nat)
              [dir "DS"; file "README.md"; dir "Patterns"] listing_by_url eq_refl)
    as (tree & E & Hk).
  exists tree. split; [exact E |]. rewrite !Hk. by vm_compute.
Defined.

Lemma fetch_records_each_folder_witness :
  ∃ tree,
    fst (fetchFoldersFromGitHub API listing (start 0%nat)) = Normal tree
    ∧ tree !! "DS" = Some ["Arrays"; "Stack"]
    ∧ tree !! "Patterns" = Some [].
Proof.
  destruct (fetch_records_each_folder API listing (start 0%nat)
              [dir "DS"; file "README.md"; dir "Patterns"] eq_refl)
    as (tree & E & _ & Hrun).
  exists tree. split; [exact E |]. split.
  - assert (GitHub.name (dir "DS") ∉ map GitHub.name [dir "Patterns"]) as Hlast.
    { simpl. rewrite not_elem_of_cons. split; [discriminate | apply not_elem_of_nil]. }
    destruct (Hrun [] (dir "DS") [dir "Patterns"] eq_refl Hlast) as [Hlisted _];
      [discriminate |].
    by apply (Hlisted [dir "Arrays"; file "notes.md"; dir "Stack"]).
  - assert (GitHub.name (dir "Patterns") ∉ map GitHub.name []) as Hlast
      by apply not_elem_of_nil.
    destruct (Hrun [dir "DS"] (dir "Patterns") [] eq_refl Hlast) as [_ Hfailed];
      [discriminate |].
    apply Hfailed. intros data. vm_compute. discriminate.
Defined.

Lemma failures_are_not_cached_witness :
  fetches (snd (serve API PYTHON listing_down persistence_creates
                  [GetFolders 0 1; GetHealth; GetFolders 2 3] (start 0%nat))) = 2%nat.
Proof.
  apply (failures_are_not_cached API PYTHON listing_down persistence_creates
           [GetFolders 0 1; GetHealth; GetFolders 2 3] (start 0%nat)); [reflexivity |].
  intros w data. vm_compute. discriminate.
Defined.

Lemma cached_tree_was_fetched_witness :
  (∃ p0, reachable API PYTHON listing persistence_creates p0
         ∧ fst (fetchFoldersFromGitHub API listing p0) = Normal fetched)
  ∧ (0 < fetches (snd (handle API PYTHON listing persistence_creates
                         (GetFolders 1 2) (start 0%nat))))%nat.
Proof.
  apply (cached_tree_was_fetched API PYTHON listing persistence_creates
           (snd (handle API PYTHON listing persistence_creates (GetFolders 1 2) (start 0%nat)))
           fetched).
  - apply reachable_step, reachable_start.
  - vm_compute. reflexivity.
Defined.

Lemma create_file_log_line_error_witness :
  create_file PYTHON persistence_creates body_object_name (start 0%nat)
  = ({| res_status := 500; res_json := ErrorBody "Internal server error" |}, start 0%nat).
Proof.
  apply (create_file_log_line_error PYTHON persistence_creates body_object_name (start 0%nat)).
  - intros k Hk. unfold REQUIRED in Hk.
    repeat (apply elem_of_cons in Hk as [-> | Hk]); try (vm_compute; reflexivity).
    by apply elem_of_nil in Hk.
  - exists "check". split; [in_list | vm_compute; reflexivity].
  - exists "filename". split; [repeat constructor | vm_compute; reflexivity].
Defined.

Lemma submitted_form_is_forwarded_witness :
  create_file PYTHON persistence_creates body (start 0%nat)
  = forward PYTHON persistence_creates body (start 0%nat)
  ∧ trace (snd (create_file PYTHON persistence_creates body (start 0%nat)))
    = [Post (PYTHON +:+ "/create-file") body].
Proof.
  destruct (submitted_form_is_forwarded PYTHON persistence_creates sample body (start 0%nat))
    as (E1 & E2 & _); [vm_compute; reflexivity |].
  split; [exact E1 | exact E2].
Defined.

Lemma modal_action_is_forwarded_witness :
  trace (snd (create_file PYTHON persistence_creates
                (handleModalAction sample_conflict "reject") (start 0%nat)))
  = [Post (PYTHON +:+ "/create-file") (<["action" := JStr "reject"]> body)].
Proof.
  apply (modal_action_is_forwarded PYTHON persistence_creates sample body sample_conflict
           "reject" (start 0%nat));
    [vm_compute; reflexivity | reflexivity | repeat constructor].
Defined.

Lemma top_folder_change_selects_first_witness :
  subFolder (handleTopFolderChange sample "Patterns") = ""
  ∧ handleSubmit (handleTopFolderChange sample "Patterns") = None.
Proof.
  destruct (top_folder_change_selects_first sample "Patterns" [])
    as (_ & E & Hnone); [vm_compute; reflexivity |].
  split; [exact E | by apply Hnone].
Defined.

Lemma failed_folder_cannot_be_submitted_witness :
  is_Some (folders sample !! "Patterns")
  ∧ handleSubmit (handleTopFolderChange sample "Patterns") = None.
Proof.
  apply (failed_folder_cannot_be_submitted API listing (start 0%nat)
           [dir "DS"; file "README.md"; dir "Patterns"] fetched
           [dir "DS"] (dir "Patterns") [] sample).
  - reflexivity.
  - vm_compute. reflexivity.
  - reflexivity.
  - apply not_elem_of_nil.
  - discriminate.
  - intros data. vm_compute. discriminate.
  - reflexivity.
Defined.

Lemma empty_root_is_cached_witness :
  fst (get_folders API listing_flat 5 6 (start 0%nat))
  = {| res_status := 200; res_json := Folders ∅ |}
  ∧ folderCache (snd (get_folders API listing_flat 5 6 (start 0%nat))) = Some ∅
  ∧ cacheTimestamp (snd (get_folders API listing_flat 5 6 (start 0%nat))) = Some 6
  ∧ trace (snd (get_folders API listing_flat 5 6 (start 0%nat))) = [Get (API +:+ "/contents")].
Proof.
  apply (empty_root_is_cached API listing_flat (start 0%nat) 5 6
           [file "README.md"; file "LICENSE"]); [reflexivity | reflexivity |].
  intros i Hi. repeat (apply elem_of_cons in Hi as [-> | Hi]); try discriminate.
  by apply elem_of_nil in Hi.
Defined.

(** What trimming removes and what it keeps. *)
Example trim_ascii : trim "  a b 	 " = "a b".
Proof. vm_compute. reflexivity. Qed.

Example trim_wide :
  trim (of_bytes ([194; 160; 32; 226; 128; 168]%N ++ bytes "x y"
                  ++ [227; 128; 128; 239; 187; 191; 13]%N)) = "x y".
Proof. vm_compute. reflexivity. Qed.

Example trim_keeps_others :
  trim (of_bytes ([194; 133]%N ++ bytes "x" ++ [226; 128; 139]%N))
  = of_bytes ([194; 133]%N ++ bytes "x" ++ [226; 128; 139]%N).
Proof. vm_compute. reflexivity. Qed.

(** A title of blanks is refused by the form, though the gateway itself
    would pass it on. *)
Example blank_title_is_refused :
  handleSubmit {| title := "   "; code := "x"; topFolder := "DS"; subFolder := "Arrays";
                  folders := fetched; modalData := None |} = None.
Proof. vm_compute. reflexivity. Qed.
